(** * codestat: line classification, statistics model and tree walker

    A shallow embedding of the [project_analyzer] package
    (models.py, analyzers/base.py, analyzers/language_config.py,
    analyzers/generic.py, analyzers/python.py, analyzers/markdown.py,
    core.py, cli.py) together with the properties its specification
    states and further properties of the code.

    Python [int] is [Z]; [str] is [string], each character standing for
    a code point below 256; a [dict] is a [gmap]; code that may raise
    returns a sum whose left side is the exception.

    The disk is a finite tree of entries, each with the outcome of the
    operations that the code performs on it: [stat()], the listing of a
    directory, the readings of a file.  An entry reached through a
    symbolic link is the entry the link resolves to.  The limits of the
    interpreter (the depth of the recursion, memory), the exceptions that
    are no [Exception] (an interrupt) and what the code prints are not
    modelled. *)

From Stdlib Require Import ZArith String Ascii List Lia Bool.
From Stdlib Require Import Sorting.Permutation Sorting.Sorted.
From Stdlib Require Import Floats.
From stdpp Require Import base gmap strings.

Local Open Scope string_scope.
Local Open Scope Z_scope.

(** ** Python [str] operations used by the analyzers *)

Module PyStr.

(** [str.isspace] on the code points below 256. *)
Definition isspace (c : ascii) : bool :=
  let n := N_of_ascii c in
  ((9 <=? n) && (n <=? 13) || (28 <=? n) && (n <=? 32)
   || (n =? 133) || (n =? 160))%N.

Fixpoint lstrip (s : string) : string :=
  match s with
  | EmptyString => EmptyString
  | String c s' => if isspace c then lstrip s' else s
  end.

Fixpoint rstrip (s : string) : string :=
  match s with
  | EmptyString => EmptyString
  | String c s' =>
      match rstrip s' with
      | EmptyString => if isspace c then EmptyString else String c EmptyString
      | r => String c r
      end
  end.

(** [s.strip()] *)
Definition strip (s : string) : string := rstrip (lstrip s).

(** Truth value of a string: [bool(s)]. *)
Definition truthy (s : string) : bool :=
  match s with EmptyString => false | _ => true end.

(** [s.startswith(p)] *)
Definition startswith (s p : string) : bool := String.prefix p s.

(** [sub in s] *)
Fixpoint contains (sub s : string) : bool :=
  String.prefix sub s
  || match s with
     | EmptyString => false
     | String _ s' => contains sub s'
     end.

Definition lower_char (c : ascii) : ascii :=
  let n := N_of_ascii c in
  if ((65 <=? n) && (n <=? 90)
      || (192 <=? n) && (n <=? 222) && negb (n =? 215))%N
  then ascii_of_N (n + 32) else c.

(** [s.lower()] *)
Fixpoint lower (s : string) : string :=
  match s with
  | EmptyString => EmptyString
  | String c s' => String (lower_char c) (lower s')
  end.

End PyStr.

(** ** pathlib paths: the parts of the path, outermost first *)

Module PyPath.

Definition Path := list string.

(** [p / child] *)
Definition joinpath (p : Path) (child : string) : Path := (p ++ [child])%list.

(** [p.name] *)
Definition name (p : Path) : string := List.last p "".

(** The text from the last dot on, when the name has a dot. *)
Fixpoint from_last_dot (s : string) : option string :=
  match s with
  | EmptyString => None
  | String c s' =>
      match from_last_dot s' with
      | Some r => Some r
      | None => if Ascii.eqb c "." then Some s else None
      end
  end.

(** [p.suffix]: with [i = name.rfind('.')], the text [name[i:]] when
    [0 < i < len(name) - 1], the empty string otherwise. *)
Definition suffix (p : Path) : string :=
  let nm := name p in
  match from_last_dot nm with
  | Some r =>
      if (String.length r <? String.length nm)%nat
         && (1 <? String.length r)%nat
      then r else ""
  | None => ""
  end.

End PyPath.

(** ** Python [float] arithmetic used by the percentages *)

Module PyFloat.

(** The two exceptions [int / int] can raise. *)
Inductive ArithmeticError := ZeroDivisionError | OverflowError.

(** An int as the binary number [m * 2^0], of unbounded mantissa: the
    operand of a division that is rounded once. *)
Definition int_as_spec_float (z : Z) : spec_float :=
  match z with
  | Z0 => S754_zero false
  | Zpos p => S754_finite false p 0
  | Zneg p => S754_finite true p 0
  end.

(** [a / b] on two ints of any size: [ZeroDivisionError] on a zero
    divisor; otherwise the exact quotient rounded once to the nearest
    binary64, ties to even, and [OverflowError] when that rounding is not
    finite.  The operands are not converted to floats first, so
    [2**63 / 2**64] is [0.5] and [0 / -1] is [-0.0]. *)
Definition true_divide (a b : Z) : ArithmeticError + float :=
  if b =? 0 then inl ZeroDivisionError
  else
    match SFdiv prec emax (int_as_spec_float a) (int_as_spec_float b) with
    | S754_infinity _ => inl OverflowError
    | q => inr (SF2Prim q)
    end.

(** [x * 100] on a float [x]: the int is converted to [100.0], and the
    product never raises. *)
Definition times_100 (x : float) : float := PrimFloat.mul x 100%float.

(** [(a / b) * 100]: the exception of the division, if any, is the
    outcome. *)
Definition ratio_times_100 (a b : Z) : ArithmeticError + float :=
  match true_divide a b with
  | inl e => inl e
  | inr x => inr (times_100 x)
  end.

End PyFloat.

(** ** models.py *)

Module Models.
Import PyPath PyFloat.

Record FileStats := mkFileStats {
  path : Path;
  total_lines : Z;
  code_lines : Z;
  comment_lines : Z;
  blank_lines : Z;
  language : string;
  has_docstring : option bool;
  num_classes : option Z;
  num_functions : option Z
}.

#[local] Unset Elimination Schemes.
Inductive DirectoryStats := mkDirectoryStats {
  dir_path : Path;
  files : list FileStats;
  subdirectories : list DirectoryStats
}.
#[local] Set Elimination Schemes.

(** Induction over a tree of directory statistics: the property may be
    assumed of every immediate subdirectory. *)
Section DirectoryStats_induction.
Variable P : DirectoryStats -> Prop.
Hypothesis step :
  forall p fs subs, Forall P subs -> P (mkDirectoryStats p fs subs).

Fixpoint DirectoryStats_tree_ind (d : DirectoryStats) : P d :=
  match d with
  | mkDirectoryStats p fs subs =>
      step p fs subs
        ((fix all (l : list DirectoryStats) : Forall P l :=
            match l with
            | [] => @List.Forall_nil _ P
            | s :: l' =>
                @List.Forall_cons _ P s l' (DirectoryStats_tree_ind s) (all l')
            end) subs)
  end.
End DirectoryStats_induction.

(** [sum(f.metric for f in self.files)] *)
Definition sum_over (metric : FileStats -> Z) (fs : list FileStats) : Z :=
  fold_left (fun acc f => acc + metric f) fs 0.

(** The aggregate properties: a first value from the direct files, then
    [for subdir in self.subdirectories: total += subdir.<aggregate>]. *)
Fixpoint total_files (d : DirectoryStats) : Z :=
  fold_left (fun count subdir => count + total_files subdir)
    (subdirectories d) (Z.of_nat (List.length (files d))).

Fixpoint total_lines_dir (d : DirectoryStats) : Z :=
  fold_left (fun total subdir => total + total_lines_dir subdir)
    (subdirectories d) (sum_over total_lines (files d)).

Fixpoint total_code_lines (d : DirectoryStats) : Z :=
  fold_left (fun total subdir => total + total_code_lines subdir)
    (subdirectories d) (sum_over code_lines (files d)).

Fixpoint total_comment_lines (d : DirectoryStats) : Z :=
  fold_left (fun total subdir => total + total_comment_lines subdir)
    (subdirectories d) (sum_over comment_lines (files d)).

Fixpoint total_blank_lines (d : DirectoryStats) : Z :=
  fold_left (fun total subdir => total + total_blank_lines subdir)
    (subdirectories d) (sum_over blank_lines (files d)).

(** [FileStats.code_percentage] and [FileStats.comment_percentage]:
    [if self.total_lines == 0: return 0.0], then
    [return (self.code_lines / self.total_lines) * 100]. *)
Definition code_percentage (self : FileStats) : ArithmeticError + float :=
  if total_lines self =? 0 then inr 0%float
  else ratio_times_100 (code_lines self) (total_lines self).





(** [list.sort(key=key, reverse=True)]: the stable sort by decreasing
    key.  An element placed in front of an already sorted tail goes
    before the first element whose key is not greater than its own. *)
Fixpoint insert_desc {A} (key : A -> Z) (x : A) (l : list A) : list A :=
  match l with
  | [] => [x]
  | y :: l' => if key y <=? key x then x :: l else y :: insert_desc key x l'
  end.

Definition sort_desc {A} (key : A -> Z) (l : list A) : list A :=
  fold_right (insert_desc key) [] l.

(** [sort_files_by_size]: the node after the call. *)
Fixpoint sort_files_by_size (self : DirectoryStats) : DirectoryStats :=
  mkDirectoryStats (dir_path self)
    (sort_desc total_lines (files self))
    (map sort_files_by_size (subdirectories self)).

(** The node and every node below it. *)
Fixpoint nodes (d : DirectoryStats) : list DirectoryStats :=
  d :: flat_map nodes (subdirectories d).

(** Every [FileStats] of the tree. *)
Definition all_files (d : DirectoryStats) : list FileStats :=
  flat_map files (nodes d).

(** The dict that [get_python_stats] returns, key by key. *)
Record PythonStats := mkPythonStats {
  stat_num_classes : Z;
  stat_num_functions : Z;
  stat_files_with_docstring : Z;
  stat_python_files : Z
}.

(** One turn of the loop of [get_python_stats] over the files. *)
Definition python_file_step (acc : PythonStats) (file_stat : FileStats)
  : PythonStats :=
  if String.eqb (PyStr.lower (language file_stat)) "python" then
    mkPythonStats
      (match num_classes file_stat with
       | Some n => stat_num_classes acc + n
       | None => stat_num_classes acc
       end)
      (match num_functions file_stat with
       | Some n => stat_num_functions acc + n
       | None => stat_num_functions acc
       end)
      (match has_docstring file_stat with
       | Some true => stat_files_with_docstring acc + 1
       | _ => stat_files_with_docstring acc
       end)
      (stat_python_files acc + 1)
  else acc.

(** The sum, key by key, that the loop over the subdirectories makes. *)
Definition python_stats_add (acc sub : PythonStats) : PythonStats :=
  mkPythonStats
    (stat_num_classes acc + stat_num_classes sub)
    (stat_num_functions acc + stat_num_functions sub)
    (stat_files_with_docstring acc + stat_files_with_docstring sub)
    (stat_python_files acc + stat_python_files sub).

Fixpoint get_python_stats (self : DirectoryStats) : PythonStats :=
  fold_left
    (fun acc subdir => python_stats_add acc (get_python_stats subdir))
    (subdirectories self)
    (fold_left python_file_step (files self) (mkPythonStats 0 0 0 0)).

End Models.

(** ** analyzers/language_config.py *)

Module LanguageConfig.
Import PyStr.

Inductive CommentStyle :=
| DOUBLE_SLASH | HASH | DOUBLE_DASH | C_MULTILINE | HTML.

(** The value of each enumeration member. *)
Definition value (style : CommentStyle) : string :=
  match style with
  | DOUBLE_SLASH => "//"
  | HASH => "#"
  | DOUBLE_DASH => "--"
  | C_MULTILINE => "/* */"
  | HTML => "<!-- -->"
  end.

#[global] Instance CommentStyle_eq_dec : EqDecision CommentStyle.
Proof. solve_decision. Defined.

Record SyntaxGroup := mkSyntaxGroup {
  languages : list string;
  single_line : list CommentStyle;
  multi_line : list CommentStyle
}.

Definition COMMENT_SYNTAX : list (string * SyntaxGroup) :=
  [ ("c_style",
     mkSyntaxGroup
       ["JavaScript"; "TypeScript"; "C"; "C++"; "C#"; "Java"; "Kotlin";
        "Scala"; "Go"; "Rust"; "Swift"; "Dart"; "PHP"; "Groovy"]
       [DOUBLE_SLASH] [C_MULTILINE]);
    ("hash_style",
     mkSyntaxGroup
       ["Python"; "Ruby"; "Shell"; "Bash"; "Zsh"; "Fish"; "Perl"; "R";
        "YAML"; "TOML"; "Elixir"]
       [HASH] []);
    ("dash_style",
     mkSyntaxGroup ["SQL"; "Lua"; "Haskell"] [DOUBLE_DASH] []);
    ("markup_style",
     mkSyntaxGroup ["HTML"; "XML"] [] [HTML]);
    ("css_style",
     mkSyntaxGroup ["CSS"; "SCSS"; "Sass"; "Less"] [] [C_MULTILINE]) ].

Definition LANGUAGE_MAP_items : list (string * string) :=
  [ (".js", "JavaScript"); (".jsx", "JavaScript"); (".ts", "TypeScript");
    (".tsx", "TypeScript"); (".mjs", "JavaScript"); (".cjs", "JavaScript");
    (".html", "HTML"); (".htm", "HTML"); (".css", "CSS"); (".scss", "SCSS");
    (".sass", "Sass"); (".less", "Less");
    (".c", "C"); (".h", "C"); (".cpp", "C++"); (".cc", "C++");
    (".cxx", "C++"); (".hpp", "C++"); (".hh", "C++"); (".hxx", "C++");
    (".cs", "C#");
    (".java", "Java"); (".kt", "Kotlin"); (".kts", "Kotlin");
    (".scala", "Scala"); (".groovy", "Groovy");
    (".go", "Go"); (".rs", "Rust"); (".swift", "Swift");
    (".rb", "Ruby"); (".php", "PHP"); (".pl", "Perl"); (".lua", "Lua");
    (".sh", "Shell"); (".bash", "Bash"); (".zsh", "Zsh"); (".fish", "Fish");
    (".sql", "SQL"); (".json", "JSON"); (".yaml", "YAML"); (".yml", "YAML");
    (".xml", "XML"); (".toml", "TOML");
    (".r", "R"); (".R", "R");
    (".m", "Objective-C"); (".mm", "Objective-C++");
    (".dart", "Dart"); (".ex", "Elixir"); (".exs", "Elixir");
    (".erl", "Erlang"); (".hrl", "Erlang"); (".hs", "Haskell");
    (".lhs", "Haskell");
    (".vim", "VimScript"); (".el", "EmacsLisp");
    (".clj", "Clojure"); (".cljs", "ClojureScript");
    (".lisp", "CommonLisp"); (".scm", "Scheme") ].

(** The dict literal: a later item of the same key would replace an
    earlier one. *)
Definition LANGUAGE_MAP : gmap string string :=
  fold_left (fun d kv => <[kv.1 := kv.2]> d) LANGUAGE_MAP_items ∅.

Record LangEntry := mkLangEntry {
  entry_single_line : list CommentStyle;
  entry_multi_line : list CommentStyle;
  entry_style : string
}.

(** [LanguageConfig.__init__]: the inverted index language -> syntax. *)
Definition _language_to_config : gmap string LangEntry :=
  fold_left
    (fun d item =>
       fold_left
         (fun d lang =>
            <[lang := mkLangEntry (single_line item.2) (multi_line item.2)
                        item.1]> d)
         (languages item.2) d)
    COMMENT_SYNTAX ∅.

Definition get_single_line_markers (language : string) : list string :=
  match _language_to_config !! language with
  | Some config => map value (entry_single_line config)
  | None => []
  end.

Definition get_multi_line_markers (language : string) : list string :=
  match _language_to_config !! language with
  | Some config => map value (entry_multi_line config)
  | None => []
  end.

Definition supports_single_line_comments (language : string) : bool :=
  (0 <? List.length (get_single_line_markers language))%nat.

Definition supports_multi_line_comments (language : string) : bool :=
  (0 <? List.length (get_multi_line_markers language))%nat.

(** [any(line.startswith(marker) for marker in markers)] *)
Definition is_comment_start (line language : string) : bool :=
  existsb (fun marker => startswith line marker)
    (get_single_line_markers language).

(** The loop of [has_multiline_start] over the markers. *)
Fixpoint multiline_start_in (line : string) (markers : list string)
  : bool * string :=
  match markers with
  | [] => (false, "")
  | marker :: rest =>
      if String.eqb marker "/* */" then
        if contains "/*" line then (true, "*/")
        else multiline_start_in line rest
      else if String.eqb marker "<!-- -->" then
        if contains "<!--" line then (true, "-->")
        else multiline_start_in line rest
      else multiline_start_in line rest
  end.

Definition has_multiline_start (line language : string) : bool * string :=
  multiline_start_in line (get_multi_line_markers language).

(** [end_marker in line if end_marker else False] *)
Definition has_multiline_end (line end_marker : string) : bool :=
  if truthy end_marker then contains end_marker line else false.

End LanguageConfig.

(** ** Exceptions and what a file holds *)

Module PyExc.

(** The exception classes that reach the tree walker; every one of them
    is a subclass of [Exception]. *)
Inductive exn :=
| FileNotFoundError
| NotADirectoryError
| PermissionError
| OSError
| OtherException (what : string).

(** [isinstance(e, PermissionError)] *)
Definition is_PermissionError (e : exn) : bool :=
  match e with PermissionError => true | _ => false end.

End PyExc.

Module FileSystem.

(** [open(path, 'r', encoding=...).readlines()] *)
Inductive ReadOutcome :=
| ReadLines (lines : list string)
| ReadUnicodeDecodeError
| ReadFails.

Inductive TokenType := COMMENT | OTHER_TOKEN.

(** A token of [tokenize]: its type and the row of [tok.start]. *)
Record Token := mkToken { tok_type : TokenType; tok_start_row : nat }.

(** [tokenize.tokenize(f.readline)] consumed to its end. *)
Inductive TokenizeOutcome :=
| Tokens (toks : list Token)
| TokenizeDecodeOrTokenError
| TokenizeFails.

Inductive NodeKind := ClassDef | FunctionDef | AsyncFunctionDef | OtherNode.

#[local] Unset Elimination Schemes.
Inductive ast_node := AstNode (kind : NodeKind) (children : list ast_node).
#[local] Set Elimination Schemes.

(** [ast.parse(source)]: the docstring of the module and its tree. *)
Record ast_module := mkAstModule {
  module_docstring : option string;
  module_tree : ast_node
}.

(** What the analyzers obtain from one file of the disk: the outcome of
    each way in which they read it, the path being opened anew each
    time.  The tokenizer and the parser are libraries and are not
    modelled; what they report is a datum of the file, which the record
    does not relate to its lines. *)
Record FileBody := mkFileBody {
  read_utf8 : ReadOutcome;
  read_latin1 : option (list string);
  tokenize_rb : TokenizeOutcome;
  ast_parse : option ast_module
}.

(** An entry of the disk, as [stat()] shows it to [exists()],
    [is_file()] and [is_dir()].  A directory holds the exception that
    [iterdir()] raises on it, if any, and its entries in the order of
    [sorted(dir_path.iterdir())].  [FsOther] is an entry that is neither
    a file nor a directory: a socket, a device and, in a listing, a link
    to nothing, on which [is_file()] and [is_dir()] return [False].
    [FsStatError] is an entry whose [stat()] fails with an error that
    these methods do not turn into [False], [EACCES] in a directory that
    may be listed but not searched for one: [exists()], [is_file()] and
    [is_dir()] raise it. *)
#[local] Unset Elimination Schemes.
Inductive fsnode :=
| FsFile (name : string) (body : FileBody)
| FsDir (name : string) (iterdir_error : option PyExc.exn)
    (entries : list fsnode)
| FsOther (name : string)
| FsStatError (name : string) (stat_error : PyExc.exn).
#[local] Set Elimination Schemes.

(** Induction over the entries of a disk tree. *)
Section fsnode_induction.
Variable P : fsnode -> Prop.
Hypothesis file_case : forall nm body, P (FsFile nm body).
Hypothesis other_case : forall nm, P (FsOther nm).
Hypothesis dir_case :
  forall nm err items, Forall P items -> P (FsDir nm err items).
Hypothesis stat_case : forall nm e, P (FsStatError nm e).

Fixpoint fsnode_tree_ind (item : fsnode) : P item :=
  match item with
  | FsFile nm body => file_case nm body
  | FsOther nm => other_case nm
  | FsDir nm err items =>
      dir_case nm err items
        ((fix all (l : list fsnode) : Forall P l :=
            match l with
            | [] => @List.Forall_nil _ P
            | i :: l' => @List.Forall_cons _ P i l' (fsnode_tree_ind i) (all l')
            end) items)
  | FsStatError nm e => stat_case nm e
  end.
End fsnode_induction.

(** [path.exists()], [path.is_file()] and [path.is_dir()]: each one
    calls [stat()], returns what the mode says, and lets through an error
    of [stat()] that is not one of the few it turns into [False].  For
    [exists()] the path is [None] when [stat()] finds nothing there, a
    link to nothing included. *)
Definition exists_ (item : option fsnode) : PyExc.exn + bool :=
  match item with
  | None => inr false
  | Some (FsStatError _ e) => inl e
  | Some _ => inr true
  end.

Definition is_file (item : fsnode) : PyExc.exn + bool :=
  match item with
  | FsFile _ _ => inr true
  | FsStatError _ e => inl e
  | _ => inr false
  end.

Definition is_dir (item : fsnode) : PyExc.exn + bool :=
  match item with
  | FsDir _ _ _ => inr true
  | FsStatError _ e => inl e
  | _ => inr false
  end.

(** The name of an entry. *)
Definition entry_name (item : fsnode) : string :=
  match item with
  | FsFile nm _ | FsDir nm _ _ | FsOther nm | FsStatError nm _ => nm
  end.

(** What opening the entry for reading obtains: the body of a file;
    every read of an entry that is not a file fails. *)
Definition file_body (item : fsnode) : FileBody :=
  match item with
  | FsFile _ body => body
  | _ => mkFileBody ReadFails None TokenizeFails None
  end.

End FileSystem.

(** ** analyzers/base.py *)

Module Base.
Import PyStr PyPath PyExc FileSystem Models.

(** The interface of an analyzer: the two abstract properties and the
    abstract method. *)
Record BaseAnalyzer := mkAnalyzer {
  supported_extensions : gset string;
  language_name : string;
  analyze : Path -> FileBody -> exn + FileStats
}.

Definition can_analyze (self : BaseAnalyzer) (file_path : Path) : bool :=
  bool_decide (lower (suffix file_path) ∈ supported_extensions self).

(** [line.strip() == ''] *)
Definition is_blank (line : string) : bool := String.eqb (strip line) "".

Definition counted (lines : list string) : Z * Z * list string :=
  (Z.of_nat (List.length lines),
   Z.of_nat (List.length (List.filter is_blank lines)),
   lines).

Definition _count_lines (body : FileBody) : Z * Z * list string :=
  match read_utf8 body with
  | ReadLines lines => counted lines
  | ReadUnicodeDecodeError =>
      match read_latin1 body with
      | Some lines => counted lines
      | None => (0, 0, [])
      end
  | ReadFails => (0, 0, [])
  end.

End Base.

(** ** analyzers/generic.py *)

Module GenericAnalyzer.
Import PyStr PyPath PyExc FileSystem Models LanguageConfig Base.

Definition supported_extensions : gset string := dom LANGUAGE_MAP.

Definition language_name : string := "Generic".

Definition _get_language_for_file (file_path : Path) : string :=
  default "Unknown" (LANGUAGE_MAP !! lower (suffix file_path)).

(** The variables the scan of [analyze] carries from line to line. *)
Record ScanState := mkScan {
  scan_comment_lines : Z;
  in_multiline_comment : bool;
  multiline_end_marker : string
}.

Definition scan_start : ScanState := mkScan 0 false "".

Definition single_line_case (language stripped : string) (st : ScanState)
  : ScanState :=
  if is_comment_start stripped language
  then mkScan (scan_comment_lines st + 1)
         (in_multiline_comment st) (multiline_end_marker st)
  else st.

(** One turn of the [for line in lines] loop. *)
Definition scan_line (language : string) (st : ScanState) (line : string)
  : ScanState :=
  let stripped := strip line in
  if negb (truthy stripped) then st
  else if supports_multi_line_comments language then
    if in_multiline_comment st then
      if has_multiline_end stripped (multiline_end_marker st)
      then mkScan (scan_comment_lines st + 1) false ""
      else mkScan (scan_comment_lines st + 1) true (multiline_end_marker st)
    else
      let '(has_start, end_marker) := has_multiline_start stripped language in
      if has_start then
        if negb (has_multiline_end stripped end_marker)
        then mkScan (scan_comment_lines st + 1) true end_marker
        else mkScan (scan_comment_lines st + 1)
               (in_multiline_comment st) (multiline_end_marker st)
      else single_line_case language stripped st
  else single_line_case language stripped st.

Definition scan (language : string) (lines : list string) : ScanState :=
  fold_left (scan_line language) lines scan_start.

Definition analyze (file_path : Path) (body : FileBody) : exn + FileStats :=
  let language := _get_language_for_file file_path in
  let '(total_lines, blank_lines, lines) := _count_lines body in
  if total_lines =? 0 then
    inr (mkFileStats file_path 0 0 0 0 language None None None)
  else
    let comment_lines := scan_comment_lines (scan language lines) in
    let code_lines := total_lines - blank_lines - comment_lines in
    inr (mkFileStats file_path total_lines code_lines comment_lines
           blank_lines language None None None).

Definition analyzer : BaseAnalyzer :=
  mkAnalyzer supported_extensions language_name analyze.

End GenericAnalyzer.

(** ** analyzers/python.py *)

Module PythonAnalyzer.
Import PyStr PyPath PyExc FileSystem Models Base.

Definition supported_extensions : gset string := {[ ".py"; ".pyw"; ".pyi" ]}.

Definition language_name : string := "Python".

(** [ast.walk(tree)]: every node of the tree, the root included. *)
Fixpoint walk (node : ast_node) : list NodeKind :=
  match node with
  | AstNode kind children => kind :: flat_map walk children
  end.

Definition count_defs (acc : Z * Z) (kind : NodeKind) : Z * Z :=
  match kind with
  | ClassDef => (acc.1 + 1, acc.2)
  | FunctionDef | AsyncFunctionDef => (acc.1, acc.2 + 1)
  | OtherNode => acc
  end.

Definition _extract_ast_info (body : FileBody) : bool * Z * Z :=
  match ast_parse body with
  | Some tree =>
      let has_docstring :=
        match module_docstring tree with Some _ => true | None => false end in
      let counts := fold_left count_defs (walk (module_tree tree)) (0, 0) in
      (has_docstring, counts.1, counts.2)
  | None => (false, 0, 0)
  end.

Definition _count_comment_lines_simple (body : FileBody) : Z :=
  match read_utf8 body with
  | ReadLines lines =>
      fold_left
        (fun comment_count line =>
           if startswith (strip line) "#" then comment_count + 1
           else comment_count)
        lines 0
  | _ => 0
  end.

Definition is_comment_token (tok : Token) : bool :=
  match tok_type tok with COMMENT => true | OTHER_TOKEN => false end.

(** The set of the rows that hold a comment token. *)
Definition comment_rows (toks : list Token) : gset nat :=
  list_to_set (map tok_start_row (List.filter is_comment_token toks)).

Definition _count_comment_lines (body : FileBody) : Z :=
  match tokenize_rb body with
  | Tokens toks => Z.of_nat (size (comment_rows toks))
  | TokenizeDecodeOrTokenError => _count_comment_lines_simple body
  | TokenizeFails => 0
  end.

Definition analyze (file_path : Path) (body : FileBody) : exn + FileStats :=
  let '(total_lines, blank_lines, lines) := _count_lines body in
  if total_lines =? 0 then
    inr (mkFileStats file_path 0 0 0 0 "Python"
           (Some false) (Some 0) (Some 0))
  else
    let '(has_docstring, num_classes, num_functions) :=
      _extract_ast_info body in
    let comment_lines := _count_comment_lines body in
    let code_lines := total_lines - blank_lines - comment_lines in
    let code_lines := if code_lines <? 0 then 0 else code_lines in
    inr (mkFileStats file_path total_lines code_lines comment_lines
           blank_lines "Python"
           (Some has_docstring) (Some num_classes) (Some num_functions)).

Definition analyzer : BaseAnalyzer :=
  mkAnalyzer supported_extensions language_name analyze.

End PythonAnalyzer.

(** ** analyzers/markdown.py *)

Module MarkdownAnalyzer.
Import PyStr PyPath PyExc FileSystem Models Base.

Definition supported_extensions : gset string := {[ ".md"; ".markdown" ]}.

Definition language_name : string := "Markdown".

(** The line counts of [analyze]; the [markdown_stats] attribute it
    attaches to the result is not part of [FileStats]. *)
Definition analyze (file_path : Path) (body : FileBody) : exn + FileStats :=
  let '(total_lines, blank_lines, lines) := _count_lines body in
  inr (mkFileStats file_path total_lines
         (Z.max 0 (total_lines - blank_lines)) 0 blank_lines "Markdown"
         None None None).

Definition analyzer : BaseAnalyzer :=
  mkAnalyzer supported_extensions language_name analyze.

End MarkdownAnalyzer.

(** ** core.py *)

Module ProjectAnalyzer.
Import PyStr PyPath PyExc FileSystem Models Base.

Definition IGNORED_DIRS : gset string :=
  list_to_set
    [ "venv"; "env"; ".venv"; "__pycache__"; ".eggs"; "build"; "dist";
      "*.egg-info"; ".pytest_cache"; ".tox"; ".mypy_cache";
      "node_modules"; ".npm";
      ".git"; ".svn"; ".hg"; ".bzr";
      ".idea"; ".vscode"; ".vs"; ".eclipse"; ".settings";
      "target"; "out"; "bin"; "obj";
      ".cache"; "tmp"; "temp"; "logs"; "coverage" ].

Record ProjectAnalyzer := mkProjectAnalyzer {
  root_path : Path;
  file_extensions : option (gset string);
  ignore_dirs : gset string;
  analyzers : list BaseAnalyzer
}.

(** [ProjectAnalyzer.__init__] *)
Definition __init__ (root_path : Path) (file_extensions : option (gset string))
    (ignore_dirs : option (gset string)) : ProjectAnalyzer :=
  mkProjectAnalyzer root_path file_extensions
    (match ignore_dirs with
     | Some extra => IGNORED_DIRS ∪ extra
     | None => IGNORED_DIRS
     end)
    [PythonAnalyzer.analyzer; GenericAnalyzer.analyzer].

Definition _should_ignore_dir (self : ProjectAnalyzer) (dir_path : Path)
  : bool :=
  let dir_name := name dir_path in
  if bool_decide (dir_name ∈ ignore_dirs self) then true
  else if startswith dir_name "."
          && negb (String.eqb dir_name "." || String.eqb dir_name "..")
  then true
  else false.

Definition _should_analyze_file (self : ProjectAnalyzer) (file_path : Path)
  : bool :=
  if startswith (name file_path) "." then false
  else
    match file_extensions self with
    | Some exts =>
        if bool_decide (exts = ∅)
        then existsb (fun a => can_analyze a file_path) (analyzers self)
        else bool_decide (lower (suffix file_path) ∈ exts)
    | None => existsb (fun a => can_analyze a file_path) (analyzers self)
    end.

Definition _get_analyzer_for_file (self : ProjectAnalyzer) (file_path : Path)
  : option BaseAnalyzer :=
  List.find (fun a => can_analyze a file_path) (analyzers self).

(** The [try] of [_analyze_file] catches every [Exception]; the
    warning it prints is not modelled. *)
Definition _analyze_file (self : ProjectAnalyzer) (file_path : Path)
    (body : FileBody) : option FileStats :=
  match _get_analyzer_for_file self file_path with
  | None => None
  | Some analyzer =>
      match analyze analyzer file_path body with
      | inr stats => Some stats
      | inl _ => None
      end
  end.

Definition append_file (d : DirectoryStats) (f : FileStats) : DirectoryStats :=
  mkDirectoryStats (dir_path d) (files d ++ [f]) (subdirectories d).

Definition append_subdirectory (d sub : DirectoryStats) : DirectoryStats :=
  mkDirectoryStats (dir_path d) (files d) (subdirectories d ++ [sub]).

(** [_analyze_directory] on the entry [dir] found at [dir_path].
    [sorted(dir_path.iterdir())] raises the listing error of a directory,
    [NotADirectoryError] on an entry that is no directory, and the error
    of [stat()] on an entry that cannot be reached; only a
    [PermissionError] is caught.  In the loop [item.is_file()] and
    [item.is_dir()] stand outside every [try]: what they raise ends the
    loop and the call, as does the exception that a nested call lets
    through. *)
Fixpoint _analyze_directory (self : ProjectAnalyzer) (dir_path : Path)
    (dir : fsnode) {struct dir} : exn + DirectoryStats :=
  let dir_stats := mkDirectoryStats dir_path [] [] in
  match dir with
  | FsDir _ None items =>
      fold_left
        (fun acc item =>
           match acc with
           | inl e => inl e
           | inr dir_stats =>
               let item_path := joinpath dir_path (entry_name item) in
               match is_file item with
               | inl e => inl e
               | inr true =>
                   if _should_analyze_file self item_path then
                     match _analyze_file self item_path (file_body item) with
                     | Some file_stats => inr (append_file dir_stats file_stats)
                     | None => inr dir_stats
                     end
                   else inr dir_stats
               | inr false =>
                   match is_dir item with
                   | inl e => inl e
                   | inr true =>
                       if negb (_should_ignore_dir self item_path) then
                         match _analyze_directory self item_path item with
                         | inl e => inl e
                         | inr subdir_stats =>
                             if total_files subdir_stats >? 0
                             then inr (append_subdirectory dir_stats
                                         subdir_stats)
                             else inr dir_stats
                         end
                       else inr dir_stats
                   | inr false => inr dir_stats
                   end
               end
           end)
        items (inr dir_stats)
  | FsDir _ (Some e) _ | FsStatError _ e =>
      if is_PermissionError e then inr dir_stats else inl e
  | FsFile _ _ | FsOther _ => inl NotADirectoryError
  end.

(** One turn of the loop of [_analyze_directory], named. *)
Definition visit (self : ProjectAnalyzer) (dir_path : Path)
    (acc : exn + DirectoryStats) (item : fsnode) : exn + DirectoryStats :=
  match acc with
  | inl e => inl e
  | inr dir_stats =>
      let item_path := joinpath dir_path (entry_name item) in
      match is_file item with
      | inl e => inl e
      | inr true =>
          if _should_analyze_file self item_path then
            match _analyze_file self item_path (file_body item) with
            | Some file_stats => inr (append_file dir_stats file_stats)
            | None => inr dir_stats
            end
          else inr dir_stats
      | inr false =>
          match is_dir item with
          | inl e => inl e
          | inr true =>
              if negb (_should_ignore_dir self item_path) then
                match _analyze_directory self item_path item with
                | inl e => inl e
                | inr subdir_stats =>
                    if total_files subdir_stats >? 0
                    then inr (append_subdirectory dir_stats subdir_stats)
                    else inr dir_stats
                end
              else inr dir_stats
          | inr false => inr dir_stats
          end
      end
  end.

(** [ProjectAnalyzer.analyze]; [root] is what the disk holds at
    [root_path], [None] when the path does not exist.  Neither
    [exists()] nor [is_dir()] stands in a [try]. *)
Definition analyze (self : ProjectAnalyzer) (root : option fsnode)
  : exn + DirectoryStats :=
  match exists_ root, root with
  | inl e, _ => inl e
  | inr true, Some node =>
      match is_dir node with
      | inl e => inl e
      | inr false => inl NotADirectoryError
      | inr true =>
          match _analyze_directory self (root_path self) node with
          | inl e => inl e
          | inr stats => inr (sort_files_by_size stats)
          end
      end
  | _, _ => inl FileNotFoundError
  end.

(** [get_supported_extensions]: the union over the analyzers. *)
Definition get_supported_extensions (self : ProjectAnalyzer) : gset string :=
  fold_left (fun extensions analyzer => extensions ∪ supported_extensions analyzer)
    (analyzers self) ∅.

End ProjectAnalyzer.

(** ** cli.py *)

Module Cli.
Import PyStr.

(** The body of the loop of [parse_extensions]: the extension with its
    leading dot, in lower case. *)
Definition normalize_extension (ext : string) : string :=
  lower (if startswith ext "." then ext else ("." ++ ext)%string).

(** [parse_extensions]: [None] for no list or an empty one. *)
Definition parse_extensions (extensions : option (list string))
  : option (gset string) :=
  match extensions with
  | None | Some [] => None
  | Some exts =>
      Some (fold_left (fun normalized ext => normalized ∪ {[ normalize_extension ext ]})
              exts ∅)
  end.

End Cli.

(** * Vocabulary of the properties *)

Module Spec.
Import PyStr PyPath PyExc FileSystem Models LanguageConfig Base.

(** The sum of a list of integers. *)
Definition Zsum (l : list Z) : Z := fold_right Z.add 0 l.

(** [l'] is [l] put in non-increasing order of [key], the elements of
    equal key in the order they have in [l]. *)
Definition stably_sorted_desc {A} (key : A -> Z) (l l' : list A) : Prop :=
  StronglySorted (fun a b => key b <= key a) l'
  /\ Permutation l l'
  /\ forall k,
       List.filter (fun a => key a =? k) l'
       = List.filter (fun a => key a =? k) l.


(** *** Vocabulary of the line classifiers *)

(** The invariant of a [FileStats]. *)
Definition stats_ok (st : FileStats) : Prop :=
  code_lines st + comment_lines st + blank_lines st = total_lines st
  /\ 0 <= total_lines st /\ 0 <= code_lines st
  /\ 0 <= comment_lines st /\ 0 <= blank_lines st.


(** A line made of whitespace only (the empty line included). *)
Fixpoint whitespace_only (line : string) : bool :=
  match line with
  | EmptyString => true
  | String c rest => isspace c && whitespace_only rest
  end.

(** The lines that [_count_lines] hands to the analyzer. *)
Definition file_lines (body : FileBody) : list string :=
  (_count_lines body).2.

(** The number of lines that are not blank. *)
Definition nonblank_count (lines : list string) : Z :=
  Z.of_nat (List.length (List.filter (fun l => negb (is_blank l)) lines)).

(** The start and the end token of a multi-line comment style. *)
Definition multiline_tokens (style : CommentStyle) : option (string * string) :=
  match style with
  | C_MULTILINE => Some ("/*", "*/")
  | HTML => Some ("<!--", "-->")
  | _ => None
  end.

(** The multi-line styles of a language. *)
Definition multi_line_styles (language : string) : list CommentStyle :=
  match _language_to_config !! language with
  | Some config => entry_multi_line config
  | None => []
  end.

(** The text holds the start token and the end token of one of the
    multi-line styles of the language. *)
Definition opens_and_closes (language text : string) : Prop :=
  exists style start_marker end_marker,
    In style (multi_line_styles language)
    /\ multiline_tokens style = Some (start_marker, end_marker)
    /\ contains start_marker text = true
    /\ contains end_marker text = true.

(** A line as [readlines()] returns it: the text and its line feed. *)
Definition LF : string := String (ascii_of_nat 10) EmptyString.
Definition ln (text : string) : string := (text ++ LF)%string.

(** A file that is read as UTF-8 and holds the given lines. *)
Definition text_file (lines : list string) : FileBody :=
  mkFileBody (ReadLines lines) None TokenizeFails None.


(** The state of a scan that is inside a multi-line comment of the
    language: the language has a single multi-line style and the
    remembered end marker is the end token of that style. *)
Definition inside_comment_of (language : string)
    (st : GenericAnalyzer.ScanState) : Prop :=
  exists style start_marker end_marker,
    multi_line_styles language = [style]
    /\ multiline_tokens style = Some (start_marker, end_marker)
    /\ GenericAnalyzer.multiline_end_marker st = end_marker.

(** The reading of the unterminated-comment scenario that counts every
    remaining line as a comment line. *)
Definition every_remaining_line_is_comment : Prop :=
  forall (language : string) (pre rest : list string),
    GenericAnalyzer.in_multiline_comment (GenericAnalyzer.scan language pre)
    = true ->
    Forall
      (fun line =>
         contains
           (GenericAnalyzer.multiline_end_marker
              (GenericAnalyzer.scan language pre)) line = false)
      rest ->
    GenericAnalyzer.scan_comment_lines
      (GenericAnalyzer.scan language (pre ++ rest))
    = GenericAnalyzer.scan_comment_lines (GenericAnalyzer.scan language pre)
      + Z.of_nat (List.length rest).

(** *** Vocabulary of the tree walker *)




(** Every subdirectory attached somewhere in the tree holds a file. *)
Definition pruned (d : DirectoryStats) : Prop :=
  forall parent sub,
    In parent (nodes d) -> In sub (subdirectories parent) ->
    0 < total_files sub.

(** The extension of a path is one of the Markdown ones. *)
Definition is_markdown (p : Path) : Prop :=
  lower (suffix p) = ".md" \/ lower (suffix p) = ".markdown".

(** A small project on the disk: a Markdown file, a directory of
    Markdown notes, a directory of two C files, a directory that may
    not be listed, and a Python file. *)
Definition sample_project : fsnode :=
  FsDir "proj" None
    [ FsFile "README.md" (text_file [ln "# title"]);
      FsDir "docs" None [FsFile "notes.markdown" (text_file [ln "x"])];
      FsDir "locked" (Some PermissionError) [];
      FsDir "src" None
        [ FsFile "a.c" (text_file [ln "/* c */"; ln "int x;"]);
          FsFile "b.c" (text_file [ln "int y;"; ln "int z;"; LF]) ];
      FsFile "z.py"
        (mkFileBody (ReadLines [ln "# a"; ln "x = 1"]) None
           (Tokens [mkToken COMMENT 1]) None) ].





(** *** Vocabulary of the further properties *)

(** The number of lines whose stripped text starts with a single-line
    comment marker of the language. *)
Definition marker_lines (language : string) (lines : list string) : Z :=
  Z.of_nat
    (List.length
       (List.filter (fun line => is_comment_start (strip line) language)
          lines)).

(** The file cannot be read: the UTF-8 read fails for a reason that is
    not the encoding, or it fails for the encoding and the Latin-1 read
    fails too. *)
Definition unreadable (body : FileBody) : Prop :=
  read_utf8 body = ReadFails
  \/ (read_utf8 body = ReadUnicodeDecodeError /\ read_latin1 body = None).

(** The same file with another outcome of [ast.parse]. *)
Definition with_ast (body : FileBody) (outcome : option ast_module)
  : FileBody :=
  mkFileBody (read_utf8 body) (read_latin1 body) (tokenize_rb body) outcome.

Definition is_class (kind : NodeKind) : bool :=
  match kind with ClassDef => true | _ => false end.

Definition is_function (kind : NodeKind) : bool :=
  match kind with FunctionDef | AsyncFunctionDef => true | _ => false end.

(** *** Vocabulary of the Python statistics of a directory *)

(** [file_stat.language.lower() == "python"] *)
Definition is_python_file (f : FileStats) : bool :=
  String.eqb (lower (language f)) "python".

(** What a file adds to each key of [get_python_stats]. *)
Definition classes_of (f : FileStats) : Z :=
  if is_python_file f then default 0 (num_classes f) else 0.

Definition functions_of (f : FileStats) : Z :=
  if is_python_file f then default 0 (num_functions f) else 0.

Definition docstring_of (f : FileStats) : Z :=
  if is_python_file f
  then match has_docstring f with Some true => 1 | _ => 0 end
  else 0.

Definition python_of (f : FileStats) : Z :=
  if is_python_file f then 1 else 0.

(** The four sums over a list of files. *)
Definition flat_python_stats (fs : list FileStats) : PythonStats :=
  mkPythonStats (Zsum (map classes_of fs)) (Zsum (map functions_of fs))
    (Zsum (map docstring_of fs)) (Zsum (map python_of fs)).

(** The counts of a file add up to its total. *)
Definition adds_up (f : FileStats) : Prop :=
  code_lines f + comment_lines f + blank_lines f = total_lines f.

(** *** Vocabulary of the further properties of the walker *)

(** The files that the walk of a directory selects, with their paths:
    the files of the listed directories, ignored directories left
    aside, for which [_should_analyze_file] holds. *)
Fixpoint selected_files (self : ProjectAnalyzer.ProjectAnalyzer)
    (dir_path : Path) (dir : fsnode) {struct dir} : list (Path * FileBody) :=
  match dir with
  | FsDir _ None items =>
      flat_map
        (fun item =>
           match item with
           | FsFile nm body =>
               if ProjectAnalyzer._should_analyze_file self (joinpath dir_path nm)
               then [(joinpath dir_path nm, body)] else []
           | FsDir nm _ _ =>
               if negb (ProjectAnalyzer._should_ignore_dir self
                          (joinpath dir_path nm))
               then selected_files self (joinpath dir_path nm) item else []
           | FsOther _ | FsStatError _ _ => []
           end)
        items
  | _ => []
  end.

(** The statistics of the files of a list that an analyzer analyzes
    without raising. *)
Definition analyzed_files (self : ProjectAnalyzer.ProjectAnalyzer)
    (selected : list (Path * FileBody)) : list FileStats :=
  flat_map
    (fun entry =>
       match ProjectAnalyzer._analyze_file self entry.1 entry.2 with
       | Some f => [f]
       | None => []
       end)
    selected.

(** The files of a node lie in its directory; so do its
    subdirectories, none of which the walker ignores. *)
Definition placed_locally (self : ProjectAnalyzer.ProjectAnalyzer)
    (d : DirectoryStats) : Prop :=
  (forall f, In f (files d) -> exists nm, path f = joinpath (dir_path d) nm)
  /\ (forall sub,
        In sub (subdirectories d) ->
        ProjectAnalyzer._should_ignore_dir self (dir_path sub) = false
        /\ exists nm, dir_path sub = joinpath (dir_path d) nm).

(** Every node of the tree is placed as the disk has it. *)
Definition mirrors_disk (self : ProjectAnalyzer.ProjectAnalyzer)
    (d : DirectoryStats) : Prop :=
  forall n, In n (nodes d) -> placed_locally self n.

End Spec.

(** * Properties of the statistics model *)

Module ModelsFacts.
Import PyStr PyPath PyExc FileSystem Models Spec.

Lemma fold_left_add {A} (f : A -> Z) (l : list A) (a : Z) :
  fold_left (fun acc x => acc + f x) l a = a + Zsum (map f l).
Proof.
  revert a; induction l as [|x l IH]; intros a; simpl.
  - lia.
  - rewrite IH. lia.
Qed.

Lemma sum_over_Zsum (metric : FileStats -> Z) (fs : list FileStats) :
  sum_over metric fs = Zsum (map metric fs).
Proof. unfold sum_over. rewrite fold_left_add. lia. Qed.

Lemma Zsum_app (l1 l2 : list Z) : Zsum (l1 ++ l2)%list = Zsum l1 + Zsum l2.
Proof. induction l1 as [|x l1 IH]; simpl; lia. Qed.

Lemma Zsum_ones {A} (l : list A) :
  Zsum (map (fun _ => 1) l) = Z.of_nat (List.length l).
Proof. induction l as [|x l IH]; simpl List.length; simpl Zsum; lia. Qed.

Lemma all_files_unfold (d : DirectoryStats) :
  all_files d = (files d ++ flat_map all_files (subdirectories d))%list.
Proof.
  unfold all_files. destruct d as [p fs subs]. simpl. f_equal.
  induction subs as [|s subs IH]; simpl; [reflexivity|].
  rewrite flat_map_app, IH. reflexivity.
Qed.

(** An aggregate that starts from the sum of a metric over the direct
    files and adds itself over the subdirectories is the sum of the
    metric over every file of the tree. *)
Section Aggregate.
Variable metric : FileStats -> Z.
Variable aggregate : DirectoryStats -> Z.
Hypothesis aggregate_unfold :
  forall d,
    aggregate d
    = fold_left (fun total subdir => total + aggregate subdir)
        (subdirectories d) (Zsum (map metric (files d))).

Lemma aggregate_direct (d : DirectoryStats) :
  aggregate d
  = Zsum (map metric (files d)) + Zsum (map aggregate (subdirectories d)).
Proof. rewrite aggregate_unfold. apply fold_left_add. Qed.

Lemma aggregate_recursive (d : DirectoryStats) :
  aggregate d = Zsum (map metric (all_files d)).
Proof.
  induction d as [p fs subs IH] using DirectoryStats_tree_ind.
  rewrite aggregate_direct, all_files_unfold. simpl.
  rewrite map_app, Zsum_app. f_equal.
  induction IH as [|s subs Hs _ IHsubs]; simpl; [reflexivity|].
  rewrite map_app, Zsum_app, Hs, IHsubs. reflexivity.
Qed.
End Aggregate.

Lemma total_files_unfold (d : DirectoryStats) :
  total_files d
  = fold_left (fun total subdir => total + total_files subdir)
      (subdirectories d) (Zsum (map (fun _ => 1) (files d))).
Proof. destruct d as [p fs subs]. simpl. rewrite Zsum_ones. reflexivity. Qed.

Lemma total_lines_dir_unfold (d : DirectoryStats) :
  total_lines_dir d
  = fold_left (fun total subdir => total + total_lines_dir subdir)
      (subdirectories d) (Zsum (map total_lines (files d))).
Proof. destruct d as [p fs subs]. simpl. rewrite sum_over_Zsum. reflexivity. Qed.

Lemma total_code_lines_unfold (d : DirectoryStats) :
  total_code_lines d
  = fold_left (fun total subdir => total + total_code_lines subdir)
      (subdirectories d) (Zsum (map code_lines (files d))).
Proof. destruct d as [p fs subs]. simpl. rewrite sum_over_Zsum. reflexivity. Qed.

Lemma total_comment_lines_unfold (d : DirectoryStats) :
  total_comment_lines d
  = fold_left (fun total subdir => total + total_comment_lines subdir)
      (subdirectories d) (Zsum (map comment_lines (files d))).
Proof. destruct d as [p fs subs]. simpl. rewrite sum_over_Zsum. reflexivity. Qed.

Lemma total_blank_lines_unfold (d : DirectoryStats) :
  total_blank_lines d
  = fold_left (fun total subdir => total + total_blank_lines subdir)
      (subdirectories d) (Zsum (map blank_lines (files d))).
Proof. destruct d as [p fs subs]. simpl. rewrite sum_over_Zsum. reflexivity. Qed.

Lemma total_files_count (d : DirectoryStats) :
  total_files d = Z.of_nat (List.length (all_files d)).
Proof.
  rewrite (aggregate_recursive _ _ total_files_unfold). apply Zsum_ones.
Qed.

(** C2. In every node of any tree of directory statistics, each of the
    five aggregates is the sum of the metric over the direct files plus
    the sum of the same aggregate over the immediate subdirectories, and
    therefore the sum of the metric over every file of the tree.  The
    aggregates are functions of the node: nothing is stored. *)
Theorem C2_aggregates_are_recursive_sums (d : DirectoryStats) :
  (total_files d
   = Z.of_nat (List.length (files d))
     + Zsum (map total_files (subdirectories d))
   /\ total_files d = Z.of_nat (List.length (all_files d)))
  /\ (total_lines_dir d
      = Zsum (map total_lines (files d))
        + Zsum (map total_lines_dir (subdirectories d))
      /\ total_lines_dir d = Zsum (map total_lines (all_files d)))
  /\ (total_code_lines d
      = Zsum (map code_lines (files d))
        + Zsum (map total_code_lines (subdirectories d))
      /\ total_code_lines d = Zsum (map code_lines (all_files d)))
  /\ (total_comment_lines d
      = Zsum (map comment_lines (files d))
        + Zsum (map total_comment_lines (subdirectories d))
      /\ total_comment_lines d = Zsum (map comment_lines (all_files d)))
  /\ (total_blank_lines d
      = Zsum (map blank_lines (files d))
        + Zsum (map total_blank_lines (subdirectories d))
      /\ total_blank_lines d = Zsum (map blank_lines (all_files d))).
Proof.
  repeat split.
  - rewrite (aggregate_direct _ _ total_files_unfold), Zsum_ones. reflexivity.
  - apply total_files_count.
  - apply (aggregate_direct _ _ total_lines_dir_unfold).
  - apply (aggregate_recursive _ _ total_lines_dir_unfold).
  - apply (aggregate_direct _ _ total_code_lines_unfold).
  - apply (aggregate_recursive _ _ total_code_lines_unfold).
  - apply (aggregate_direct _ _ total_comment_lines_unfold).
  - apply (aggregate_recursive _ _ total_comment_lines_unfold).
  - apply (aggregate_direct _ _ total_blank_lines_unfold).
  - apply (aggregate_recursive _ _ total_blank_lines_unfold).
Qed.

(** *** Sorting the files by size *)

Section InsertDesc.
Context {A : Type} (key : A -> Z).

Lemma insert_desc_perm (x : A) (l : list A) :
  Permutation (x :: l) (insert_desc key x l).
Proof.
  induction l as [|y l IH]; simpl; [reflexivity|].
  destruct (key y <=? key x); [reflexivity|].
  rewrite perm_swap. apply perm_skip, IH.
Qed.

Lemma insert_desc_Forall (P : A -> Prop) (x : A) (l : list A) :
  P x -> Forall P l -> Forall P (insert_desc key x l).
Proof.
  intros Hx Hl. eapply Permutation_Forall; [apply insert_desc_perm|].
  constructor; assumption.
Qed.

Lemma insert_desc_sorted (x : A) (l : list A) :
  StronglySorted (fun a b => key b <= key a) l ->
  StronglySorted (fun a b => key b <= key a) (insert_desc key x l).
Proof.
  induction 1 as [|y l Hl IH Hy]; simpl.
  - repeat constructor.
  - destruct (key y <=? key x) eqn:E.
    + apply Z.leb_le in E. constructor; [constructor; assumption|].
      constructor; [assumption|].
      eapply Forall_impl; [exact Hy|]. simpl. intros z Hz. lia.
    + apply Z.leb_gt in E. constructor; [assumption|].
      apply insert_desc_Forall; [lia | assumption].
Qed.

Lemma insert_desc_filter (k : Z) (x : A) (l : list A) :
  List.filter (fun a => key a =? k) (insert_desc key x l)
  = List.filter (fun a => key a =? k) (x :: l).
Proof.
  induction l as [|y l IH]; [reflexivity|].
  cbn [insert_desc]. destruct (key y <=? key x) eqn:E; [reflexivity|].
  apply Z.leb_gt in E. cbn [List.filter] in *. rewrite IH.
  destruct (key x =? k) eqn:Ex, (key y =? k) eqn:Ey; try reflexivity.
  apply Z.eqb_eq in Ex, Ey. lia.
Qed.

Lemma sort_desc_stably_sorted (l : list A) :
  stably_sorted_desc key l (sort_desc key l).
Proof.
  unfold stably_sorted_desc, sort_desc.
  induction l as [|x l (Hs & Hp & Hf)]; simpl.
  - repeat split; constructor.
  - split; [apply insert_desc_sorted, Hs|]. split.
    + rewrite <- insert_desc_perm. apply perm_skip, Hp.
    + intros k. rewrite insert_desc_filter. cbn [List.filter].
      rewrite Hf. reflexivity.
Qed.
End InsertDesc.

(** C7. After [sort_files_by_size], node by node over the whole tree
    (the nodes of the result are the nodes of the tree, in the same
    places), the direct files are in non-increasing order of
    [total_lines], files of equal [total_lines] keep the order they had,
    and the files are a permutation of the files before. *)
Theorem C7_sort_files_by_size_stable (d : DirectoryStats) :
  Forall2
    (fun before after =>
       dir_path after = dir_path before
       /\ List.length (subdirectories after)
          = List.length (subdirectories before)
       /\ stably_sorted_desc total_lines (files before) (files after))
    (nodes d) (nodes (sort_files_by_size d)).
Proof.
  induction d as [p fs subs IH] using DirectoryStats_tree_ind.
  cbn [sort_files_by_size nodes dir_path files subdirectories].
  constructor.
  - cbn. split; [reflexivity|]. split; [apply length_map|].
    apply sort_desc_stably_sorted.
  - induction IH as [|s subs Hs _ IHsubs]; cbn; [constructor|].
    apply Forall2_app; assumption.
Qed.

(** *** Percentages *)

















(** One code line out of four is 25 percent; no line at all is 0. *)
Example code_percentage_quarter :
  code_percentage (mkFileStats [] 4 1 2 1 "C" None None None) = inr 25%float
  /\ code_percentage (mkFileStats [] 0 0 0 0 "C" None None None)
     = inr 0%float.
Proof. split; reflexivity. Qed.

(** The quotient is rounded from the exact ratio of the two ints, whatever
    their size: beyond [2^53], beyond the largest float, and with the sign
    of a zero. *)
Example true_divide_large_ints :
  PyFloat.true_divide (2 ^ 62) (2 ^ 63) = inr 0.5%float
  /\ PyFloat.true_divide (2 ^ 63) (2 ^ 64) = inr 0.5%float
  /\ PyFloat.true_divide (10 ^ 400) (10 ^ 399) = inr 10%float
  /\ PyFloat.true_divide (2 ^ 53 + 1) 1 = inr 9007199254740992%float
  /\ PyFloat.true_divide 1 3 = inr 0x1.5555555555555p-2%float
  /\ PyFloat.true_divide 0 (-1) = inr (-0)%float.
Proof. repeat split; vm_compute; reflexivity. Qed.

(** A quotient too large for a float is an [OverflowError], a zero divisor
    a [ZeroDivisionError]: the first reaches a percentage, the second
    never does. *)
Example percentage_overflow :
  PyFloat.true_divide (10 ^ 400) 1 = inl PyFloat.OverflowError
  /\ PyFloat.true_divide 5 0 = inl PyFloat.ZeroDivisionError
  /\ code_percentage (mkFileStats [] 1 (10 ^ 400) 0 0 "C" None None None)
     = inl PyFloat.OverflowError
  /\ code_percentage (mkFileStats [] 3 1 1 1 "C" None None None)
     = inr 0x1.0aaaaaaaaaaaap+5%float.
Proof. repeat split; vm_compute; reflexivity. Qed.

End ModelsFacts.

(** * Properties of the Python string operations *)

Module PyStrFacts.
Import PyStr Spec.

Lemma truthy_eqb (s : string) : truthy s = negb (String.eqb s "").
Proof. destruct s; reflexivity. Qed.

Lemma lstrip_whitespace_only (s : string) :
  whitespace_only s = true -> lstrip s = "".
Proof.
  induction s as [|c s IH]; simpl; [reflexivity|].
  intros H. apply andb_prop in H. destruct H as [Hc Hs].
  rewrite Hc. apply IH, Hs.
Qed.

Lemma strip_whitespace_only (s : string) :
  whitespace_only s = true -> strip s = "".
Proof. intros H. unfold strip. rewrite lstrip_whitespace_only; auto. Qed.

Lemma rstrip_empty (s : string) : rstrip s = "" -> whitespace_only s = true.
Proof.
  induction s as [|c s IH]; simpl; [reflexivity|].
  destruct (rstrip s); [|discriminate].
  destruct (isspace c); [|discriminate]. intros _. apply IH. reflexivity.
Qed.

Lemma lstrip_not_space (s : string) :
  match lstrip s with
  | EmptyString => True
  | String c _ => isspace c = false
  end.
Proof.
  induction s as [|c s IH]; simpl; [exact I|].
  destruct (isspace c) eqn:E; [exact IH | exact E].
Qed.

Lemma lstrip_empty (s : string) : lstrip s = "" -> whitespace_only s = true.
Proof.
  induction s as [|c s IH]; simpl; [reflexivity|].
  destruct (isspace c); [exact IH | discriminate].
Qed.

(** A line is blank for the analyzers exactly when it is made of
    whitespace only. *)
Lemma strip_empty_iff (s : string) :
  strip s = "" <-> whitespace_only s = true.
Proof.
  split; [|apply strip_whitespace_only].
  unfold strip. intros H. apply rstrip_empty in H.
  pose proof (lstrip_not_space s) as Hns.
  destruct (lstrip s) as [|c r] eqn:E.
  - apply lstrip_empty, E.
  - simpl in H. rewrite Hns in H. discriminate.
Qed.

Lemma prefix_empty (s : string) : String.prefix "" s = true.
Proof. destruct s; reflexivity. Qed.

Lemma prefix_app (sub a t : string) :
  String.prefix sub a = true -> String.prefix sub (a ++ t)%string = true.
Proof.
  revert a; induction sub as [|c sub IH]; intros a H.
  - apply prefix_empty.
  - destruct a as [|d a]; simpl in *; [discriminate|].
    destruct (Ascii.ascii_dec c d); [|discriminate]. apply IH, H.
Qed.

Lemma contains_app_r (sub a t : string) :
  contains sub a = true -> contains sub (a ++ t)%string = true.
Proof.
  induction a as [|d a IH]; intros H.
  - simpl in H. rewrite orb_false_r in H.
    destruct sub; [|discriminate].
    destruct t; reflexivity.
  - cbn [contains] in H. apply orb_prop in H.
    change (String d a ++ t)%string with (String d (a ++ t)%string).
    cbn [contains]. destruct H as [H|H].
    + change (String d (a ++ t)%string) with (String d a ++ t)%string.
      rewrite (prefix_app _ _ _ H). reflexivity.
    + rewrite (IH H). apply orb_true_r.
Qed.

Lemma contains_app_l (sub t a : string) :
  contains sub a = true -> contains sub (t ++ a)%string = true.
Proof.
  intros H. induction t as [|d t IH]; [exact H|].
  change (String d t ++ a)%string with (String d (t ++ a)%string).
  cbn [contains]. rewrite IH. apply orb_true_r.
Qed.

Lemma append_cons (c : ascii) (t a : string) :
  (String c t ++ a)%string = String c (t ++ a)%string.
Proof. reflexivity. Qed.

Lemma lstrip_suffix (s : string) : exists t, s = (t ++ lstrip s)%string.
Proof.
  induction s as [|c s [t IH]]; simpl; [exists ""; reflexivity|].
  destruct (isspace c).
  - exists (String c t). rewrite append_cons. f_equal. exact IH.
  - exists "". reflexivity.
Qed.

Lemma rstrip_prefix (s : string) : exists t, s = (rstrip s ++ t)%string.
Proof.
  induction s as [|c s [t IH]]; simpl; [exists ""; reflexivity|].
  destruct (rstrip s) as [|d r] eqn:E.
  - destruct (isspace c).
    + exists (String c s). reflexivity.
    + exists t. rewrite append_cons. f_equal. exact IH.
  - exists t. rewrite append_cons. f_equal. exact IH.
Qed.

(** Whatever the stripped line holds, the line holds. *)
Lemma contains_strip (sub s : string) :
  contains sub (strip s) = true -> contains sub s = true.
Proof.
  unfold strip. intros H.
  destruct (lstrip_suffix s) as [t Ht].
  destruct (rstrip_prefix (lstrip s)) as [u Hu].
  rewrite Ht. apply contains_app_l. rewrite Hu. apply contains_app_r, H.
Qed.

Lemma contains_nonempty (sub s : string) :
  sub <> "" -> contains sub s = true -> s <> "".
Proof.
  intros Hsub H ->. simpl in H. rewrite orb_false_r in H.
  destruct sub; [contradiction | discriminate].
Qed.


End PyStrFacts.

(** * Properties of the line classifiers *)

Module AnalyzerFacts.
Import PyStr PyPath PyExc FileSystem Models LanguageConfig Base Spec.
Import PyStrFacts.
Import GenericAnalyzer.

(** *** The registry *)

(** Every language of the registry has no multi-line style or exactly
    one, the C one or the HTML one. *)
Lemma registry_multi_line :
  map_Forall
    (fun _ config =>
       entry_multi_line config = []
       \/ entry_multi_line config = [C_MULTILINE]
       \/ entry_multi_line config = [HTML])
    _language_to_config.
Proof. apply (bool_decide_unpack _). vm_compute. exact I. Qed.

Lemma multi_line_styles_cases (language : string) :
  multi_line_styles language = []
  \/ multi_line_styles language = [C_MULTILINE]
  \/ multi_line_styles language = [HTML].
Proof.
  unfold multi_line_styles.
  destruct (_language_to_config !! language) as [config|] eqn:E; [|auto].
  exact (map_Forall_lookup_1 _ _ _ _ registry_multi_line E).
Qed.

Lemma get_multi_line_markers_styles (language : string) :
  get_multi_line_markers language = map value (multi_line_styles language).
Proof.
  unfold get_multi_line_markers, multi_line_styles.
  destruct (_language_to_config !! language); reflexivity.
Qed.

(** *** Blank lines *)

Lemma is_blank_whitespace_only (line : string) :
  is_blank line = whitespace_only line.
Proof.
  unfold is_blank. destruct (String.eqb_spec (strip line) "") as [E|E].
  - symmetry. apply strip_empty_iff, E.
  - destruct (whitespace_only line) eqn:W; [|reflexivity].
    apply strip_empty_iff in W. contradiction.
Qed.

Lemma truthy_strip (line : string) :
  truthy (strip line) = negb (is_blank line).
Proof. apply truthy_eqb. Qed.

Lemma filter_blank_split (lines : list string) :
  Z.of_nat (List.length lines)
  = Z.of_nat (List.length (List.filter is_blank lines))
    + nonblank_count lines.
Proof.
  unfold nonblank_count. induction lines as [|l lines IH]; simpl; [lia|].
  destruct (is_blank l); simpl; lia.
Qed.

Lemma nonblank_count_nonneg (lines : list string) : 0 <= nonblank_count lines.
Proof. unfold nonblank_count. lia. Qed.

Lemma nonblank_count_cons (l : string) (lines : list string) :
  nonblank_count (l :: lines)
  = (if is_blank l then 0 else 1) + nonblank_count lines.
Proof. unfold nonblank_count. simpl. destruct (is_blank l); simpl; lia. Qed.

Lemma nonblank_count_app (l1 l2 : list string) :
  nonblank_count (l1 ++ l2)%list = nonblank_count l1 + nonblank_count l2.
Proof.
  induction l1 as [|l l1 IH]; [unfold nonblank_count; simpl; lia|].
  change ((l :: l1) ++ l2)%list with (l :: (l1 ++ l2))%list.
  rewrite !nonblank_count_cons, IH. lia.
Qed.

Lemma count_lines_counted (body : FileBody) :
  _count_lines body = counted (file_lines body).
Proof.
  unfold file_lines, _count_lines.
  destruct (read_utf8 body); [reflexivity| |reflexivity].
  destruct (read_latin1 body); reflexivity.
Qed.

(** *** The scan of the generic analyzer *)

(** A blank line leaves the whole state of the scan as it was. *)
Lemma scan_line_blank (language : string) (st : ScanState) (line : string) :
  is_blank line = true -> scan_line language st line = st.
Proof.
  intros H. unfold scan_line. rewrite truthy_strip, H. reflexivity.
Qed.

(** A line adds at most one comment line, and none when it is blank. *)
Lemma scan_line_count (language : string) (st : ScanState) (line : string) :
  scan_comment_lines (scan_line language st line) = scan_comment_lines st
  \/ (scan_comment_lines (scan_line language st line)
      = scan_comment_lines st + 1
      /\ is_blank line = false).
Proof.
  destruct (is_blank line) eqn:B.
  - left. rewrite scan_line_blank; auto.
  - unfold scan_line, single_line_case. rewrite truthy_strip, B.
    cbn [negb]. repeat case_match; cbn [scan_comment_lines]; auto.
Qed.

Lemma scan_from_count (language : string) (lines : list string)
    (st : ScanState) :
  scan_comment_lines st
  <= scan_comment_lines (fold_left (scan_line language) lines st)
  <= scan_comment_lines st + nonblank_count lines.
Proof.
  revert st. induction lines as [|l lines IH]; intros st.
  - unfold nonblank_count. simpl. lia.
  - simpl fold_left. rewrite nonblank_count_cons.
    specialize (IH (scan_line language st l)).
    destruct (scan_line_count language st l) as [E|[E B]].
    + rewrite E in IH. destruct (is_blank l); lia.
    + rewrite E in IH. rewrite B. lia.
Qed.

Lemma scan_app (language : string) (pre rest : list string) :
  scan language (pre ++ rest)
  = fold_left (scan_line language) rest (scan language pre).
Proof. unfold scan. apply fold_left_app. Qed.

Lemma generic_analyze_ok (file_path : Path) (body : FileBody) :
  exists st, GenericAnalyzer.analyze file_path body = inr st /\ stats_ok st.
Proof.
  unfold GenericAnalyzer.analyze. rewrite count_lines_counted.
  unfold counted. set (lines := file_lines body).
  pose proof (filter_blank_split lines) as Hsplit.
  pose proof (nonblank_count_nonneg lines) as Hnb.
  pose proof (scan_from_count (_get_language_for_file file_path) lines
                scan_start) as Hscan.
  change (scan_comment_lines scan_start) with 0 in Hscan.
  fold (scan (_get_language_for_file file_path) lines) in Hscan.
  destruct (Z.of_nat (List.length lines) =? 0) eqn:E.
  - eexists. split; [reflexivity|]. unfold stats_ok.
    cbn [code_lines comment_lines blank_lines total_lines]. lia.
  - eexists. split; [reflexivity|]. unfold stats_ok.
    cbn [code_lines comment_lines blank_lines total_lines]. lia.
Qed.

(** *** The Python analyzer *)








(** *** Lines that open or close a multi-line comment *)

Lemma supports_multi_line_styles (language : string) :
  supports_multi_line_comments language = true
  <-> multi_line_styles language <> [].
Proof.
  unfold supports_multi_line_comments.
  rewrite get_multi_line_markers_styles.
  destruct (multi_line_styles language); cbn; split; congruence.
Qed.

Lemma has_multiline_start_single (language line : string)
    (style : CommentStyle) (start_marker end_marker : string) :
  multi_line_styles language = [style] ->
  multiline_tokens style = Some (start_marker, end_marker) ->
  has_multiline_start line language
  = if contains start_marker line then (true, end_marker) else (false, "").
Proof.
  intros Hstyles Htokens. unfold has_multiline_start.
  rewrite get_multi_line_markers_styles, Hstyles.
  destruct style; try discriminate; injection Htokens as <- <-; reflexivity.
Qed.

Lemma single_style (language : string) :
  supports_multi_line_comments language = true ->
  exists style start_marker end_marker,
    multi_line_styles language = [style]
    /\ multiline_tokens style = Some (start_marker, end_marker)
    /\ end_marker <> "".
Proof.
  intros H. apply supports_multi_line_styles in H.
  destruct (multi_line_styles_cases language) as [E|[E|E]].
  - contradiction.
  - exists C_MULTILINE, "/*", "*/". repeat split; [exact E | discriminate].
  - exists HTML, "<!--", "-->". repeat split; [exact E | discriminate].
Qed.

Lemma end_marker_nonempty (style : CommentStyle)
    (start_marker end_marker : string) :
  multiline_tokens style = Some (start_marker, end_marker) ->
  truthy end_marker = true.
Proof.
  destruct style; try discriminate; intros H; injection H as <- <-;
    reflexivity.
Qed.

(** Along a scan, the flag is set only with the end token of the
    single multi-line style of the language. *)
Lemma scan_line_inside (language : string) (st : ScanState) (line : string) :
  (in_multiline_comment st = true -> inside_comment_of language st) ->
  in_multiline_comment (scan_line language st line) = true ->
  inside_comment_of language (scan_line language st line).
Proof.
  intros Hinv. unfold scan_line, single_line_case.
  destruct (negb (truthy (strip line))); [exact Hinv|].
  destruct (supports_multi_line_comments language) eqn:Hs.
  - destruct (in_multiline_comment st) eqn:Hin.
    + destruct (has_multiline_end (strip line) (multiline_end_marker st));
        cbn [in_multiline_comment]; [discriminate|].
      intros _. exact (Hinv eq_refl).
    + destruct (single_style language Hs)
        as (style & start_marker & end_marker & Hst & Htok & _).
      rewrite (has_multiline_start_single _ _ _ _ _ Hst Htok).
      destruct (contains start_marker (strip line)).
      * destruct (negb (has_multiline_end (strip line) end_marker));
          cbn [in_multiline_comment]; [|congruence].
        intros _. exists style, start_marker, end_marker. auto.
      * destruct (is_comment_start (strip line) language);
          cbn [in_multiline_comment]; congruence.
  - destruct (is_comment_start (strip line) language);
      cbn [in_multiline_comment]; exact Hinv.
Qed.

Lemma scan_inside (language : string) (lines : list string) :
  in_multiline_comment (scan language lines) = true ->
  inside_comment_of language (scan language lines).
Proof.
  induction lines as [|l lines IH] using rev_ind.
  - discriminate.
  - rewrite scan_app. cbn [fold_left]. apply scan_line_inside, IH.
Qed.

Lemma inside_supports (language : string) (st : ScanState) :
  inside_comment_of language st ->
  supports_multi_line_comments language = true.
Proof.
  intros (style & _ & _ & Hst & _). apply supports_multi_line_styles.
  rewrite Hst. discriminate.
Qed.

(** A line that holds the start and the end token of the style of the
    language is one comment line and leaves the scan outside any
    multi-line comment, whether the scan was inside one or not. *)
Lemma scan_line_opens_and_closes (language : string) (st : ScanState)
    (line : string) :
  supports_multi_line_comments language = true ->
  (in_multiline_comment st = true -> inside_comment_of language st) ->
  opens_and_closes language (strip line) ->
  scan_comment_lines (scan_line language st line) = scan_comment_lines st + 1
  /\ in_multiline_comment (scan_line language st line) = false.
Proof.
  intros Hs Hinv (style & start_marker & end_marker & Hin & Htok & Hc1 & Hc2).
  destruct (single_style language Hs)
    as (style' & start' & end' & Hst & Htok' & _).
  rewrite Hst in Hin. destruct Hin as [<-|[]].
  rewrite Htok in Htok'. injection Htok' as <- <-.
  assert (truthy (strip line) = true) as Hne.
  { destruct (strip line) eqn:E; [|reflexivity].
    exfalso. eapply (contains_nonempty end_marker ""); eauto.
    intros ->. pose proof (end_marker_nonempty _ _ _ Htok). discriminate. }
  assert (has_multiline_end (strip line) end_marker = true) as Hend.
  { unfold has_multiline_end.
    rewrite (end_marker_nonempty _ _ _ Htok). exact Hc2. }
  unfold scan_line. rewrite Hne, Hs. cbn [negb].
  destruct (in_multiline_comment st) eqn:Hflag.
  - destruct (Hinv eq_refl) as (style2 & start2 & end2 & Hst2 & Htok2 & Hm).
    rewrite Hst in Hst2. injection Hst2 as <-.
    rewrite Htok in Htok2. injection Htok2 as <- <-.
    rewrite Hm, Hend. cbn. auto.
  - rewrite (has_multiline_start_single _ _ _ _ _ Hst Htok), Hc1, Hend.
    cbn. auto.
Qed.

(** C5. For a language with multi-line comments, a line whose stripped
    text holds the start marker and the matching end marker counts as
    exactly one comment line and leaves the scan outside a multi-line
    comment; a C file of the lines [/* one line */] and [code();] has
    one comment line and one code line. *)
Theorem C5_same_line_comment :
  (forall (language : string) (pre : list string) (line : string),
      supports_multi_line_comments language = true ->
      opens_and_closes language (strip line) ->
      scan_comment_lines (scan language (pre ++ [line]))
      = scan_comment_lines (scan language pre) + 1
      /\ in_multiline_comment (scan language (pre ++ [line])) = false)
  /\ (exists st,
        GenericAnalyzer.analyze ["a.c"]
          (text_file [ln "/* one line */"; ln "code();"]) = inr st
        /\ comment_lines st = 1 /\ code_lines st = 1).
Proof.
  split.
  - intros language pre line Hs Hoc. rewrite scan_app. cbn [fold_left].
    apply scan_line_opens_and_closes; [exact Hs| |exact Hoc].
    apply scan_inside.
  - eexists. split; [vm_compute; reflexivity|]. split; reflexivity.
Qed.

(** In a CSS file, after an opening line, a line that closes the
    comment and opens another one on the same line. *)
Lemma C5_same_line_comment_witness :
  supports_multi_line_comments "CSS" = true
  /\ opens_and_closes "CSS" (strip (ln "  /* a */ b { }"))
  /\ scan_comment_lines (scan "CSS" ([ln "p { }"] ++ [ln "  /* a */ b { }"]))
     = scan_comment_lines (scan "CSS" [ln "p { }"]) + 1
  /\ in_multiline_comment (scan "CSS" ([ln "p { }"] ++ [ln "  /* a */ b { }"]))
     = false.
Proof.
  assert (supports_multi_line_comments "CSS" = true) as Hs
    by (vm_compute; reflexivity).
  assert (opens_and_closes "CSS" (strip (ln "  /* a */ b { }"))) as Hoc.
  { exists C_MULTILINE, "/*", "*/".
    split; [vm_compute; auto|]. repeat split; vm_compute; reflexivity. }
  split; [exact Hs|]. split; [exact Hoc|].
  exact (proj1 C5_same_line_comment "CSS" [ln "p { }"]
           (ln "  /* a */ b { }") Hs Hoc).
Defined.

(** *** Inside a multi-line comment that is never closed *)

Lemma scan_unterminated (language end_marker : string)
    (rest : list string) (st : ScanState) :
  supports_multi_line_comments language = true ->
  in_multiline_comment st = true ->
  multiline_end_marker st = end_marker ->
  Forall (fun line => contains end_marker line = false) rest ->
  let final := fold_left (scan_line language) rest st in
  scan_comment_lines final = scan_comment_lines st + nonblank_count rest
  /\ in_multiline_comment final = true
  /\ multiline_end_marker final = end_marker.
Proof.
  intros Hs. revert st.
  induction rest as [|l rest IH]; intros st Hflag Hm Hrest.
  - cbn. unfold nonblank_count. cbn. repeat split; [lia|assumption..].
  - apply Forall_cons in Hrest. destruct Hrest as [Hl Hrest].
    cbn [fold_left]. rewrite nonblank_count_cons.
    destruct (is_blank l) eqn:B.
    + rewrite scan_line_blank by exact B.
      destruct (IH st Hflag Hm Hrest) as (H1 & H2 & H3).
      repeat split; [lia|assumption..].
    + assert (scan_line language st l
              = mkScan (scan_comment_lines st + 1) true end_marker) as ->.
      { unfold scan_line. rewrite truthy_strip, B, Hs, Hflag, Hm.
        cbn [negb].
        assert (has_multiline_end (strip l) end_marker = false) as ->;
          [|reflexivity].
        unfold has_multiline_end. destruct (truthy end_marker); [|reflexivity].
        destruct (contains end_marker (strip l)) eqn:C; [|reflexivity].
        apply contains_strip in C. congruence. }
      destruct (IH (mkScan (scan_comment_lines st + 1) true end_marker)
                  eq_refl eq_refl Hrest) as (H1 & H2 & H3).
      cbn [scan_comment_lines] in H1.
      repeat split; [lia|assumption..].
Qed.

(** C6, as the code has it.  Once the scan is inside a multi-line
    comment whose end marker is on none of the remaining lines, every
    remaining line that is not blank is counted as a comment line, the
    blank ones are not, the scan is still inside the comment at the end
    of the input, and the analyzer returns its statistics. *)
Theorem C6_unterminated_comment :
  (forall (language : string) (pre rest : list string),
      in_multiline_comment (scan language pre) = true ->
      Forall
        (fun line =>
           contains (multiline_end_marker (scan language pre)) line = false)
        rest ->
      scan_comment_lines (scan language (pre ++ rest))
      = scan_comment_lines (scan language pre) + nonblank_count rest
      /\ in_multiline_comment (scan language (pre ++ rest)) = true)
  /\ (forall file_path body,
        exists st, GenericAnalyzer.analyze file_path body = inr st).
Proof.
  split.
  - intros language pre rest Hflag Hrest. rewrite scan_app.
    pose proof (inside_supports _ _ (scan_inside _ _ Hflag)) as Hs.
    destruct (scan_unterminated language _ rest (scan language pre)
                Hs Hflag eq_refl Hrest) as (H1 & H2 & _).
    auto.
  - intros file_path body.
    destruct (generic_analyze_ok file_path body) as (st & Hst & _).
    exists st. exact Hst.
Qed.

Lemma C6_unterminated_comment_witness :
  in_multiline_comment (scan "C" [ln "/* start"]) = true
  /\ Forall
       (fun line =>
          contains (multiline_end_marker (scan "C" [ln "/* start"])) line
          = false)
       [LF; ln "still"]
  /\ scan_comment_lines (scan "C" ([ln "/* start"] ++ [LF; ln "still"]))
     = scan_comment_lines (scan "C" [ln "/* start"])
       + nonblank_count [LF; ln "still"]
  /\ in_multiline_comment (scan "C" ([ln "/* start"] ++ [LF; ln "still"]))
     = true.
Proof.
  assert (in_multiline_comment (scan "C" [ln "/* start"]) = true) as Hflag
    by (vm_compute; reflexivity).
  assert (Forall
            (fun line =>
               contains (multiline_end_marker (scan "C" [ln "/* start"]))
                 line = false)
            [LF; ln "still"]) as Hrest
    by (repeat constructor; vm_compute; reflexivity).
  split; [exact Hflag|]. split; [exact Hrest|].
  exact (proj1 C6_unterminated_comment "C" [ln "/* start"] [LF; ln "still"]
           Hflag Hrest).
Defined.

(** The blank line that follows the opening line of an unterminated
    comment is not counted as a comment line: two lines remain after
    [/* start], none holds the end marker, and the count goes from 1 to
    2, not to 3. *)
Lemma C6_blank_line_not_comment :
  let pre := [ln "/* start"] in
  let rest := [LF; ln "still"] in
  in_multiline_comment (scan "C" pre) = true
  /\ Forall
       (fun line =>
          contains (multiline_end_marker (scan "C" pre)) line = false) rest
  /\ scan_comment_lines (scan "C" pre) = 1
  /\ scan_comment_lines (scan "C" (pre ++ rest)) = 2
  /\ (exists st,
        GenericAnalyzer.analyze ["a.c"] (text_file (pre ++ rest)) = inr st
        /\ total_lines st = 3 /\ comment_lines st = 2 /\ blank_lines st = 1)
  /\ ~ every_remaining_line_is_comment.
Proof.
  intros pre rest.
  assert (in_multiline_comment (scan "C" pre) = true) as Hflag
    by (vm_compute; reflexivity).
  assert (Forall
            (fun line =>
               contains (multiline_end_marker (scan "C" pre)) line = false)
            rest) as Hrest
    by (repeat constructor; vm_compute; reflexivity).
  assert (scan_comment_lines (scan "C" pre) = 1) as E1
    by (vm_compute; reflexivity).
  assert (scan_comment_lines (scan "C" (pre ++ rest)) = 2) as E2
    by (vm_compute; reflexivity).
  split; [exact Hflag|]. split; [exact Hrest|]. split; [exact E1|].
  split; [exact E2|]. split.
  - eexists. split; [vm_compute; reflexivity|]. repeat split.
  - intros H. specialize (H "C" pre rest Hflag Hrest).
    rewrite E1, E2 in H. cbn in H. lia.
Qed.

(** *** Blank lines *)

(** C9. A line of whitespace only is counted as blank and changes
    nothing in the scan: not the comment count, not the flag, not the
    remembered end marker, in whatever state the scan is; the scan of a
    file is the scan of the file without that line. *)
Theorem C9_blank_line_only_blank (language : string) (st : ScanState)
    (pre post : list string) (line : string) :
  whitespace_only line = true ->
  scan_line language st line = st
  /\ scan language (pre ++ line :: post) = scan language (pre ++ post)
  /\ snd (fst (counted (pre ++ line :: post)))
     = snd (fst (counted (pre ++ post))) + 1.
Proof.
  intros Hw. rewrite <- is_blank_whitespace_only in Hw.
  split; [apply scan_line_blank, Hw|]. split.
  - rewrite !scan_app. cbn [fold_left]. rewrite scan_line_blank by exact Hw.
    reflexivity.
  - unfold counted. cbn [fst snd].
    rewrite !List.filter_app, !length_app. cbn [List.filter].
    rewrite Hw. cbn [List.length]. lia.
Qed.

(** A line of two spaces and a tab inside an open C comment. *)
Lemma C9_blank_line_only_blank_witness :
  let line := ln ("  " ++ String (ascii_of_nat 9) "") in
  let st := scan "C" [ln "/* start"] in
  whitespace_only line = true
  /\ in_multiline_comment st = true
  /\ scan_line "C" st line = st
  /\ scan "C" ([ln "/* start"] ++ line :: [ln "end */"])
     = scan "C" ([ln "/* start"] ++ [ln "end */"])
  /\ snd (fst (counted ([ln "/* start"] ++ line :: [ln "end */"])))
     = snd (fst (counted ([ln "/* start"] ++ [ln "end */"]))) + 1.
Proof.
  intros line st.
  assert (whitespace_only line = true) as Hw by (vm_compute; reflexivity).
  split; [exact Hw|]. split; [vm_compute; reflexivity|].
  exact (C9_blank_line_only_blank "C" st [ln "/* start"] [ln "end */"]
           line Hw).
Defined.

End AnalyzerFacts.

(** * Properties of the tree walker *)

Module WalkerFacts.
Import PyStr PyPath PyExc FileSystem Models Base Spec ModelsFacts.
Import ProjectAnalyzer.

Lemma analyze_directory_listed (self : ProjectAnalyzer) (dir_path : Path)
    (nm : string) (items : list fsnode) :
  _analyze_directory self dir_path (FsDir nm None items)
  = fold_left (visit self dir_path) items
      (inr (mkDirectoryStats dir_path [] [])).
Proof. reflexivity. Qed.

Lemma fold_visit_raised (self : ProjectAnalyzer) (dir_path : Path)
    (items : list fsnode) (e : exn) :
  fold_left (visit self dir_path) items (inl e) = inl e.
Proof. induction items as [|i items IH]; [reflexivity | exact IH]. Qed.

(** What [analyze] returns is the sorted tree of the walk of the root. *)
Lemma analyze_returned (self : ProjectAnalyzer) (root : option fsnode)
    (stats : DirectoryStats) :
  analyze self root = inr stats ->
  exists node d,
    root = Some node
    /\ _analyze_directory self (root_path self) node = inr d
    /\ stats = sort_files_by_size d.
Proof.
  unfold analyze.
  destruct root as [[nm body|nm err items|nm|nm se]|];
    cbn [exists_ is_dir]; try discriminate.
  destruct (_analyze_directory self (root_path self) (FsDir nm err items))
    as [e|d] eqn:E; [discriminate|].
  intros [= <-]. eauto.
Qed.

(** *** What every tree built by the walker satisfies *)

(** A property of the statistics that holds of an empty node and is
    kept when a file accepted by the walker or a subdirectory that
    holds a file is appended holds of whatever the walker returns. *)
Section WalkerInvariant.
Variable self : ProjectAnalyzer.
Variable Q : DirectoryStats -> Prop.
Variable F : FileStats -> Prop.
Hypothesis Q_empty : forall p, Q (mkDirectoryStats p [] []).
Hypothesis Q_file : forall d f, Q d -> F f -> Q (append_file d f).
Hypothesis Q_subdirectory :
  forall d sub,
    Q d -> Q sub -> 0 < total_files sub -> Q (append_subdirectory d sub).
Hypothesis F_analyzed :
  forall p body f,
    _should_analyze_file self p = true ->
    _analyze_file self p body = Some f -> F f.

Lemma visit_invariant (dir_path : Path) (item : fsnode)
    (acc : exn + DirectoryStats) (d : DirectoryStats) :
  (forall p sub, _analyze_directory self p item = inr sub -> Q sub) ->
  (forall d0, acc = inr d0 -> Q d0) ->
  visit self dir_path acc item = inr d -> Q d.
Proof.
  intros Hitem Hacc. unfold visit.
  destruct acc as [e|d0]; [discriminate|].
  specialize (Hacc d0 eq_refl).
  destruct item as [nm body|nm err items|nm|nm se];
    cbn [is_file is_dir entry_name file_body].
  - destruct (_should_analyze_file self (joinpath dir_path nm)) eqn:Hs.
    + destruct (_analyze_file self (joinpath dir_path nm) body) as [f|]
        eqn:Hf.
      * intros [= <-]. eapply Q_file; eauto.
      * intros [= <-]. exact Hacc.
    + intros [= <-]. exact Hacc.
  - destruct (negb (_should_ignore_dir self (joinpath dir_path nm))).
    + destruct (_analyze_directory self (joinpath dir_path nm)
                  (FsDir nm err items)) as [e|sub] eqn:Hsub;
        [discriminate|].
      destruct (total_files sub >? 0) eqn:Ht.
      * intros [= <-]. apply Q_subdirectory; [exact Hacc| |lia].
        eapply Hitem, Hsub.
      * intros [= <-]. exact Hacc.
    + intros [= <-]. exact Hacc.
  - intros [= <-]. exact Hacc.
  - discriminate.
Qed.

Lemma fold_visit_invariant (dir_path : Path) (items : list fsnode) :
  Forall
    (fun item =>
       forall p sub, _analyze_directory self p item = inr sub -> Q sub)
    items ->
  forall acc d,
    (forall d0, acc = inr d0 -> Q d0) ->
    fold_left (visit self dir_path) items acc = inr d -> Q d.
Proof.
  induction 1 as [|item items Hitem _ IH]; intros acc d Hacc.
  - cbn. intros ->. apply Hacc. reflexivity.
  - cbn [fold_left]. apply IH. intros d0 Hd0.
    eapply visit_invariant; eauto.
Qed.

Lemma analyze_directory_invariant (dir : fsnode) :
  forall p d, _analyze_directory self p dir = inr d -> Q d.
Proof.
  induction dir as [nm body|nm|nm err items IH|nm se] using fsnode_tree_ind;
    intros p d.
  - discriminate.
  - discriminate.
  - destruct err as [e|].
    + cbn. destruct (is_PermissionError e); [|discriminate].
      intros [= <-]. apply Q_empty.
    + rewrite analyze_directory_listed.
      apply fold_visit_invariant; [exact IH|].
      intros d0 [= <-]. apply Q_empty.
  - cbn. destruct (is_PermissionError se); [|discriminate].
    intros [= <-]. apply Q_empty.
Qed.
End WalkerInvariant.

(** *** Sorting keeps the files and the shape of the tree *)

Lemma sort_all_files_perm (d : DirectoryStats) :
  Permutation (all_files d) (all_files (sort_files_by_size d)).
Proof.
  induction d as [p fs subs IH] using DirectoryStats_tree_ind.
  rewrite !all_files_unfold.
  cbn [sort_files_by_size files subdirectories].
  apply Permutation_app.
  - apply (sort_desc_stably_sorted total_lines fs).
  - induction IH as [|s subs Hs _ IHsubs]; cbn; [constructor|].
    apply Permutation_app; assumption.
Qed.

Lemma sort_total_files (d : DirectoryStats) :
  total_files (sort_files_by_size d) = total_files d.
Proof.
  rewrite !total_files_count.
  rewrite (Permutation_length (sort_all_files_perm d)). reflexivity.
Qed.

(** *** Pruning *)

Lemma nodes_unfold (d : DirectoryStats) :
  nodes d = d :: flat_map nodes (subdirectories d).
Proof. destruct d; reflexivity. Qed.

Lemma pruned_unfold (d : DirectoryStats) :
  pruned d
  <-> forall sub, In sub (subdirectories d) -> 0 < total_files sub /\ pruned sub.
Proof.
  unfold pruned. split.
  - intros H sub Hsub. split.
    + apply (H d sub); [rewrite nodes_unfold; left; reflexivity | exact Hsub].
    + intros parent sub' Hp Hs. apply (H parent sub'); [|exact Hs].
      rewrite nodes_unfold. right. apply in_flat_map. eauto.
  - intros H parent sub Hp Hs. rewrite nodes_unfold in Hp.
    destruct Hp as [<-|Hp].
    + apply H, Hs.
    + apply in_flat_map in Hp. destruct Hp as (s & Hs1 & Hs2).
      destruct (H s Hs1) as [_ Hpr]. apply (Hpr parent sub); assumption.
Qed.

Lemma pruned_empty (p : Path) : pruned (mkDirectoryStats p [] []).
Proof. apply pruned_unfold. intros sub []. Qed.

Lemma pruned_append_file (d : DirectoryStats) (f : FileStats) :
  pruned d -> pruned (append_file d f).
Proof. rewrite !pruned_unfold. intros H. exact H. Qed.

Lemma pruned_append_subdirectory (d sub : DirectoryStats) :
  pruned d -> pruned sub -> 0 < total_files sub ->
  pruned (append_subdirectory d sub).
Proof.
  intros Hd Hsub Hpos. apply pruned_unfold. cbn [append_subdirectory subdirectories].
  intros s Hs. apply in_app_or in Hs. destruct Hs as [Hs|[<-|[]]].
  - apply (proj1 (pruned_unfold d) Hd), Hs.
  - auto.
Qed.

Lemma pruned_sort (d : DirectoryStats) :
  pruned d -> pruned (sort_files_by_size d).
Proof.
  induction d as [p fs subs IH] using DirectoryStats_tree_ind.
  rewrite !pruned_unfold. cbn [sort_files_by_size subdirectories].
  intros H s Hs. apply in_map_iff in Hs. destruct Hs as (s0 & <- & Hs0).
  destruct (H s0 Hs0) as [Hpos Hpr]. rewrite sort_total_files.
  split; [exact Hpos|].
  rewrite List.Forall_forall in IH. apply IH; assumption.
Qed.

Lemma analyze_directory_pruned (self : ProjectAnalyzer) (dir : fsnode)
    (p : Path) (d : DirectoryStats) :
  _analyze_directory self p dir = inr d -> pruned d.
Proof.
  apply (analyze_directory_invariant self pruned (fun _ => True)).
  - exact pruned_empty.
  - intros d0 f H _. apply pruned_append_file, H.
  - exact pruned_append_subdirectory.
  - trivial.
Qed.

(** C4. In the tree that [analyze] returns, every node that is in the
    list of subdirectories of some node holds at least one file in its
    own tree; the walker leaves out a subdirectory whose statistics
    count no file. *)
Theorem C4_subdirectories_hold_files (self : ProjectAnalyzer)
    (root : option fsnode) (stats : DirectoryStats) :
  analyze self root = inr stats ->
  pruned stats
  /\ (forall dir_path d nm err items sub,
        _analyze_directory self (joinpath dir_path nm) (FsDir nm err items)
        = inr sub ->
        total_files sub = 0 ->
        visit self dir_path (inr d) (FsDir nm err items) = inr d).
Proof.
  intros H. split.
  - destruct (analyze_returned _ _ _ H) as (node & d & -> & E & ->).
    apply pruned_sort.
    eapply analyze_directory_pruned, E.
  - intros dir_path d nm err items sub Hsub Hzero. unfold visit.
    cbn [is_file is_dir entry_name].
    destruct (negb (_should_ignore_dir self (joinpath dir_path nm)));
      [|reflexivity].
    rewrite Hsub, Hzero. reflexivity.
Qed.

(** The sample project: of its three directories only [src] is kept. *)
Lemma C4_subdirectories_hold_files_witness :
  let self := __init__ ["proj"] None None in
  exists stats,
    analyze self (Some sample_project) = inr stats
    /\ map dir_path (subdirectories stats) = [["proj"; "src"]]
    /\ pruned stats.
Proof.
  intros self.
  destruct (analyze self (Some sample_project)) as [e|stats] eqn:E;
    [vm_compute in E; discriminate|].
  exists stats. split; [reflexivity|]. split.
  - vm_compute in E. injection E as <-. reflexivity.
  - exact (proj1 (C4_subdirectories_hold_files self (Some sample_project)
                    stats E)).
Defined.

(** *** Markdown files *)

Lemma markdown_not_supported (a : BaseAnalyzer) (p : Path) :
  In a [PythonAnalyzer.analyzer; GenericAnalyzer.analyzer] ->
  is_markdown p -> can_analyze a p = false.
Proof.
  intros [<-|[<-|[]]] [H|H]; unfold can_analyze; rewrite H;
    vm_compute; reflexivity.
Qed.

Lemma markdown_is_supported_by_markdown_analyzer (p : Path) :
  is_markdown p -> can_analyze MarkdownAnalyzer.analyzer p = true.
Proof.
  intros [H|H]; unfold can_analyze; rewrite H; vm_compute; reflexivity.
Qed.

Lemma default_analyzers_keep_path (a : BaseAnalyzer) (p : Path)
    (body : FileBody) (f : FileStats) :
  In a [PythonAnalyzer.analyzer; GenericAnalyzer.analyzer] ->
  Base.analyze a p body = inr f -> path f = p.
Proof.
  intros [<-|[<-|[]]]; cbn [Base.analyze PythonAnalyzer.analyzer
                              GenericAnalyzer.analyzer].
  - unfold PythonAnalyzer.analyze.
    destruct (_count_lines body) as [[total blank] lines].
    destruct (PythonAnalyzer._extract_ast_info body) as [[doc nc] nf].
    destruct (total =? 0); intros [= <-]; reflexivity.
  - unfold GenericAnalyzer.analyze.
    destruct (_count_lines body) as [[total blank] lines].
    destruct (total =? 0); intros [= <-]; reflexivity.
Qed.

Lemma analyze_file_keeps_path (self : ProjectAnalyzer) (p : Path)
    (body : FileBody) (f : FileStats) :
  analyzers self = [PythonAnalyzer.analyzer; GenericAnalyzer.analyzer] ->
  _analyze_file self p body = Some f ->
  path f = p /\ exists a, In a (analyzers self) /\ can_analyze a p = true.
Proof.
  intros Ha. unfold _analyze_file, _get_analyzer_for_file.
  destruct (List.find (fun a => can_analyze a p) (analyzers self)) as [a|]
    eqn:E; [|discriminate].
  apply find_some in E. destruct E as [Hin Hcan].
  destruct (Base.analyze a p body) as [e|f'] eqn:Hf; [discriminate|].
  intros [= <-]. split; [|eauto].
  eapply default_analyzers_keep_path; [|exact Hf]. rewrite <- Ha. exact Hin.
Qed.

Lemma all_files_append_file (d : DirectoryStats) (f f' : FileStats) :
  In f' (all_files (append_file d f)) -> In f' (all_files d) \/ f' = f.
Proof.
  rewrite !all_files_unfold. cbn [append_file files subdirectories].
  rewrite !in_app_iff. cbn. intuition.
Qed.

Lemma all_files_append_subdirectory (d sub : DirectoryStats) (f : FileStats) :
  In f (all_files (append_subdirectory d sub)) ->
  In f (all_files d) \/ In f (all_files sub).
Proof.
  rewrite (all_files_unfold (append_subdirectory d sub)), (all_files_unfold d).
  cbn [append_subdirectory files subdirectories].
  rewrite flat_map_app, !in_app_iff. cbn. rewrite app_nil_r. intuition.
Qed.

(** C10. With no explicit set of extensions, neither of the two
    analyzers of a [ProjectAnalyzer], the Python one and the generic
    one, supports a path whose extension is [.md] or [.markdown]; the
    Markdown analyzer, which supports it, is not in the list; the
    walker does not select such a file, and no file of the tree it
    returns has such a path. *)
Theorem C10_markdown_never_analyzed (root_path : Path)
    (ignore_dirs : option (gset string)) (root : option fsnode)
    (stats : DirectoryStats) :
  let self := __init__ root_path None ignore_dirs in
  analyzers self = [PythonAnalyzer.analyzer; GenericAnalyzer.analyzer]
  /\ (forall p,
        is_markdown p ->
        can_analyze MarkdownAnalyzer.analyzer p = true
        /\ (forall a, In a (analyzers self) -> can_analyze a p = false)
        /\ _should_analyze_file self p = false
        /\ (forall body, _analyze_file self p body = None))
  /\ (analyze self root = inr stats ->
      forall f, In f (all_files stats) -> ~ is_markdown (path f)).
Proof.
  intros self. split; [reflexivity|].
  assert (forall p, is_markdown p ->
                    forall a, In a (analyzers self) -> can_analyze a p = false)
    as Hnone.
  { intros p Hmd a Ha. apply markdown_not_supported; assumption. }
  assert (forall p, is_markdown p -> _should_analyze_file self p = false)
    as Hskip.
  { intros p Hmd. unfold _should_analyze_file.
    destruct (startswith (name p) "."); [reflexivity|].
    cbn [file_extensions self __init__ analyzers existsb].
    rewrite !(markdown_not_supported _ p) by (cbn; auto). reflexivity. }
  split.
  - intros p Hmd. split; [apply markdown_is_supported_by_markdown_analyzer, Hmd|].
    split; [exact (Hnone p Hmd)|]. split; [exact (Hskip p Hmd)|].
    intros body. unfold _analyze_file, _get_analyzer_for_file.
    cbn [self __init__ analyzers List.find].
    rewrite !(markdown_not_supported _ p) by (cbn; auto). reflexivity.
  - intros H.
    assert (forall dir p d,
               _analyze_directory self p dir = inr d ->
               forall f, In f (all_files d) -> ~ is_markdown (path f))
      as Hwalk.
    { intros dir.
      apply (analyze_directory_invariant self
               (fun d => forall f, In f (all_files d) -> ~ is_markdown (path f))
               (fun f => ~ is_markdown (path f))).
      - intros p f []. 
      - intros d f Hd Hf f' Hin.
        apply all_files_append_file in Hin. destruct Hin as [Hin| ->]; auto.
      - intros d sub Hd Hsub _ f Hin.
        apply all_files_append_subdirectory in Hin. destruct Hin; auto.
      - intros p body f Hshould Hf Hmd.
        destruct (analyze_file_keeps_path self p body f eq_refl Hf)
          as [Hpath _].
        rewrite Hpath in Hmd. rewrite (Hskip p Hmd) in Hshould.
        discriminate. }
    destruct (analyze_returned _ _ _ H) as (node & d & -> & E & ->).
    intros f Hin.
    apply (Hwalk node _ d E).
    eapply Permutation_in; [|exact Hin].
    symmetry. apply sort_all_files_perm.
Qed.

(** The sample project holds [README.md] and [docs/notes.markdown];
    the tree has the two C files and the Python file only. *)
Lemma C10_markdown_never_analyzed_witness :
  let self := __init__ ["proj"] None None in
  is_markdown ["proj"; "README.md"]
  /\ _should_analyze_file self ["proj"; "README.md"] = false
  /\ exists stats,
       analyze self (Some sample_project) = inr stats
       /\ map path (all_files stats)
          = [["proj"; "z.py"]; ["proj"; "src"; "b.c"]; ["proj"; "src"; "a.c"]]
       /\ forall f, In f (all_files stats) -> ~ is_markdown (path f).
Proof.
  intros self.
  assert (is_markdown ["proj"; "README.md"]) as Hmd by (left; reflexivity).
  destruct (analyze self (Some sample_project)) as [e|stats] eqn:E;
    [vm_compute in E; discriminate|].
  pose proof (C10_markdown_never_analyzed ["proj"] None
                (Some sample_project) stats) as (_ & Hp & Hall).
  split; [exact Hmd|].
  split; [exact (proj1 (proj2 (proj2 (Hp _ Hmd))))|].
  exists stats. split; [reflexivity|]. split.
  - vm_compute in E. injection E as <-. reflexivity.
  - exact (Hall E).
Defined.

(** *** Exceptions *)









End WalkerFacts.


(** * Further properties of the line classifiers *)

Module AnalyzerExtra.
Import PyStr PyPath PyExc FileSystem Models LanguageConfig Base Spec.
Import PyStrFacts AnalyzerFacts.
Import GenericAnalyzer.

(** *** Languages without multi-line comments *)

Lemma value_nonempty (style : CommentStyle) : value style <> "".
Proof. destruct style; discriminate. Qed.

Lemma is_comment_start_empty (language : string) :
  is_comment_start "" language = false.
Proof.
  unfold is_comment_start, get_single_line_markers.
  destruct (_language_to_config !! language) as [config|]; [|reflexivity].
  induction (entry_single_line config) as [|style styles IH]; [reflexivity|].
  cbn [map existsb]. rewrite IH, orb_false_r.
  unfold startswith. pose proof (value_nonempty style).
  destruct (value style); [contradiction | reflexivity].
Qed.

Lemma scan_line_single_only (language : string) (c : Z) (line : string) :
  supports_multi_line_comments language = false ->
  scan_line language (mkScan c false "") line
  = mkScan (if is_comment_start (strip line) language then c + 1 else c)
      false "".
Proof.
  intros Hs. unfold scan_line, single_line_case. rewrite Hs.
  destruct (strip line) eqn:E; cbn [truthy negb].
  - rewrite is_comment_start_empty. reflexivity.
  - destruct (is_comment_start (String a s) language); reflexivity.
Qed.

Lemma fold_single_only (language : string) (lines : list string) (c : Z) :
  supports_multi_line_comments language = false ->
  fold_left (scan_line language) lines (mkScan c false "")
  = mkScan (c + marker_lines language lines) false "".
Proof.
  intros Hs. revert c. unfold marker_lines.
  induction lines as [|l lines IH]; intros c; cbn [fold_left List.filter].
  - f_equal. cbn. lia.
  - rewrite scan_line_single_only by exact Hs. rewrite IH.
    destruct (is_comment_start (strip l) language); cbn [List.length];
      f_equal; lia.
Qed.

(** For a language without multi-line comments the scan keeps no state:
    its comment count is the number of lines whose stripped text starts
    with a single-line marker, and it is never inside a comment. *)
Theorem single_line_language_scan (language : string) (lines : list string) :
  supports_multi_line_comments language = false ->
  scan language lines = mkScan (marker_lines language lines) false "".
Proof.
  intros Hs. unfold scan, scan_start.
  rewrite (fold_single_only language lines 0 Hs). reflexivity.
Qed.

Lemma single_line_language_scan_witness :
  supports_multi_line_comments "SQL" = false
  /\ scan "SQL" [ln "-- all rows"; LF; ln "SELECT 1; -- one"]
     = mkScan (marker_lines "SQL" [ln "-- all rows"; LF; ln "SELECT 1; -- one"])
         false ""
  /\ marker_lines "SQL" [ln "-- all rows"; LF; ln "SELECT 1; -- one"] = 1.
Proof.
  assert (supports_multi_line_comments "SQL" = false) as Hs
    by (vm_compute; reflexivity).
  split; [exact Hs|]. split; [|vm_compute; reflexivity].
  exact (single_line_language_scan "SQL"
           [ln "-- all rows"; LF; ln "SELECT 1; -- one"] Hs).
Defined.

(** A file whose language is not in the registry of comment syntaxes
    (an unknown extension, JSON, Erlang, ...) has no comment line: every
    line that is not blank is a code line. *)
Theorem unregistered_language_no_comment (file_path : Path) (body : FileBody) :
  _language_to_config !! _get_language_for_file file_path = None ->
  exists st,
    GenericAnalyzer.analyze file_path body = inr st
    /\ comment_lines st = 0
    /\ code_lines st = nonblank_count (file_lines body)
    /\ total_lines st = Z.of_nat (List.length (file_lines body)).
Proof.
  intros Hnone.
  assert (supports_multi_line_comments (_get_language_for_file file_path)
          = false) as Hs.
  { unfold supports_multi_line_comments, get_multi_line_markers.
    rewrite Hnone. reflexivity. }
  assert (forall lines,
             marker_lines (_get_language_for_file file_path) lines = 0) as Hm.
  { intros lines. unfold marker_lines.
    induction lines as [|l lines IH]; [reflexivity|]. cbn [List.filter].
    unfold is_comment_start at 1, get_single_line_markers.
    rewrite Hnone. exact IH. }
  unfold GenericAnalyzer.analyze. rewrite count_lines_counted. unfold counted.
  set (lines := file_lines body).
  pose proof (filter_blank_split lines) as Hsplit.
  rewrite (single_line_language_scan _ lines Hs), Hm.
  destruct (Z.of_nat (List.length lines) =? 0) eqn:E.
  - apply Z.eqb_eq in E. eexists. split; [reflexivity|].
    cbn [comment_lines code_lines total_lines].
    pose proof (nonblank_count_nonneg lines). repeat split; lia.
  - eexists. split; [reflexivity|].
    cbn [comment_lines code_lines total_lines scan_comment_lines].
    repeat split; lia.
Qed.

Lemma unregistered_language_no_comment_witness :
  let body := text_file [ln "{"; ln "  // not a comment here"; LF; ln "}"] in
  _language_to_config !! _get_language_for_file ["data.json"] = None
  /\ exists st,
       GenericAnalyzer.analyze ["data.json"] body = inr st
       /\ comment_lines st = 0
       /\ code_lines st = nonblank_count (file_lines body)
       /\ total_lines st = Z.of_nat (List.length (file_lines body)).
Proof.
  intros body.
  assert (_language_to_config !! _get_language_for_file ["data.json"] = None)
    as Hnone by (vm_compute; reflexivity).
  split; [exact Hnone|].
  exact (unregistered_language_no_comment ["data.json"] body Hnone).
Defined.

(** *** The two states of the scan *)

Lemma scan_line_outside_marker (language : string) (st : ScanState)
    (line : string) :
  (in_multiline_comment st = false -> multiline_end_marker st = "") ->
  in_multiline_comment (scan_line language st line) = false ->
  multiline_end_marker (scan_line language st line) = "".
Proof.
  intros Hinv. unfold scan_line, single_line_case.
  repeat case_match;
    cbn [in_multiline_comment multiline_end_marker];
    try discriminate; try reflexivity; intros; auto.
Qed.

(** Whatever the lines, the scan remembers an end marker exactly while
    it is inside a multi-line comment: outside, the marker is the empty
    string; inside, it is the end token of the single multi-line style
    of the language. *)
Theorem scan_flag_and_marker (language : string) (lines : list string) :
  (in_multiline_comment (scan language lines) = false ->
   multiline_end_marker (scan language lines) = "")
  /\ (in_multiline_comment (scan language lines) = true ->
      inside_comment_of language (scan language lines)
      /\ multiline_end_marker (scan language lines) <> "").
Proof.
  split.
  - induction lines as [|l lines IH] using rev_ind; [reflexivity|].
    rewrite scan_app. cbn [fold_left]. apply scan_line_outside_marker, IH.
  - intros H. pose proof (scan_inside language lines H) as Hin.
    split; [exact Hin|].
    destruct Hin as (style & start_marker & end_marker & _ & Htok & ->).
    pose proof (end_marker_nonempty _ _ _ Htok) as Ht.
    intros ->. discriminate.
Qed.

Lemma scan_flag_and_marker_witness :
  in_multiline_comment (scan "HTML" [ln "<p>"; ln "<!-- note"]) = true
  /\ inside_comment_of "HTML" (scan "HTML" [ln "<p>"; ln "<!-- note"])
  /\ multiline_end_marker (scan "HTML" [ln "<p>"; ln "<!-- note"]) <> "".
Proof.
  assert (in_multiline_comment (scan "HTML" [ln "<p>"; ln "<!-- note"]) = true)
    as H by (vm_compute; reflexivity).
  split; [exact H|].
  exact (proj2 (scan_flag_and_marker "HTML" [ln "<p>"; ln "<!-- note"]) H).
Defined.

(** Outside a comment, a line that holds the start marker of the
    language and not its end marker opens a multi-line comment and is a
    comment line, wherever the marker stands in the line: after code,
    or after a single-line marker. *)
Theorem scan_opens_comment (language : string) (pre : list string)
    (line : string) (style : CommentStyle) (start_marker end_marker : string) :
  In style (multi_line_styles language) ->
  multiline_tokens style = Some (start_marker, end_marker) ->
  in_multiline_comment (scan language pre) = false ->
  contains start_marker (strip line) = true ->
  contains end_marker (strip line) = false ->
  scan language (pre ++ [line])
  = mkScan (scan_comment_lines (scan language pre) + 1) true end_marker.
Proof.
  intros Hin Htok Hflag Hstart Hend.
  assert (supports_multi_line_comments language = true) as Hs.
  { apply supports_multi_line_styles. intros E. rewrite E in Hin.
    destruct Hin. }
  destruct (single_style language Hs)
    as (style' & start' & end' & Hst & Htok' & _).
  rewrite Hst in Hin. destruct Hin as [->|[]].
  rewrite Htok in Htok'. injection Htok' as <- <-.
  assert (truthy (strip line) = true) as Hne.
  { destruct (strip line) eqn:E; [|reflexivity]. exfalso.
    destruct style; try discriminate; injection Htok as <- <-;
      discriminate. }
  rewrite scan_app. cbn [fold_left]. unfold scan_line.
  rewrite Hne, Hs, Hflag. cbn [negb].
  rewrite (has_multiline_start_single _ _ _ _ _ Hst Htok), Hstart.
  unfold has_multiline_end. rewrite (end_marker_nonempty _ _ _ Htok), Hend.
  reflexivity.
Qed.

Lemma scan_opens_comment_witness :
  In C_MULTILINE (multi_line_styles "Java")
  /\ multiline_tokens C_MULTILINE = Some ("/*", "*/")
  /\ in_multiline_comment (scan "Java" [ln "int x;"]) = false
  /\ contains "/*" (strip (ln "int y; // see /* below")) = true
  /\ contains "*/" (strip (ln "int y; // see /* below")) = false
  /\ scan "Java" ([ln "int x;"] ++ [ln "int y; // see /* below"])
     = mkScan (scan_comment_lines (scan "Java" [ln "int x;"]) + 1) true "*/".
Proof.
  assert (In C_MULTILINE (multi_line_styles "Java")) as H1
    by (vm_compute; auto).
  assert (in_multiline_comment (scan "Java" [ln "int x;"]) = false) as H3
    by (vm_compute; reflexivity).
  assert (contains "/*" (strip (ln "int y; // see /* below")) = true) as H4
    by (vm_compute; reflexivity).
  assert (contains "*/" (strip (ln "int y; // see /* below")) = false) as H5
    by (vm_compute; reflexivity).
  repeat (split; [assumption || reflexivity|]).
  exact (scan_opens_comment "Java" [ln "int x;"] (ln "int y; // see /* below")
           C_MULTILINE "/*" "*/" H1 eq_refl H3 H4 H5).
Defined.

(** Inside a comment, a line that holds the remembered end marker is a
    comment line and closes the comment, whatever follows the marker on
    the line. *)
Theorem scan_closes_comment (language : string) (pre : list string)
    (line : string) :
  in_multiline_comment (scan language pre) = true ->
  contains (multiline_end_marker (scan language pre)) (strip line) = true ->
  scan language (pre ++ [line])
  = mkScan (scan_comment_lines (scan language pre) + 1) false "".
Proof.
  intros Hflag Hend.
  destruct (proj2 (scan_flag_and_marker language pre) Hflag) as [Hin Hne].
  pose proof (inside_supports _ _ Hin) as Hs.
  assert (truthy (multiline_end_marker (scan language pre)) = true) as Ht.
  { destruct (multiline_end_marker (scan language pre));
      [contradiction | reflexivity]. }
  assert (truthy (strip line) = true) as Hl.
  { destruct (strip line) eqn:E; [|reflexivity]. exfalso.
    eapply (contains_nonempty _ "" Hne); [exact Hend | reflexivity]. }
  rewrite scan_app. cbn [fold_left]. unfold scan_line.
  rewrite Hl, Hs, Hflag. cbn [negb].
  unfold has_multiline_end. rewrite Ht, Hend. reflexivity.
Qed.

Lemma scan_closes_comment_witness :
  in_multiline_comment (scan "C" [ln "/* start"]) = true
  /\ contains (multiline_end_marker (scan "C" [ln "/* start"]))
       (strip (ln "still comment */ int x;")) = true
  /\ scan "C" ([ln "/* start"] ++ [ln "still comment */ int x;"])
     = mkScan (scan_comment_lines (scan "C" [ln "/* start"]) + 1) false "".
Proof.
  assert (in_multiline_comment (scan "C" [ln "/* start"]) = true) as H1
    by (vm_compute; reflexivity).
  assert (contains (multiline_end_marker (scan "C" [ln "/* start"]))
            (strip (ln "still comment */ int x;")) = true) as H2
    by (vm_compute; reflexivity).
  split; [exact H1|]. split; [exact H2|].
  exact (scan_closes_comment "C" [ln "/* start"] (ln "still comment */ int x;")
           H1 H2).
Defined.

(** *** The Python analyzer *)

Lemma python_hash_marker (text : string) :
  is_comment_start text "Python" = startswith text "#".
Proof.
  unfold is_comment_start.
  change (get_single_line_markers "Python") with ["#"].
  cbn [existsb]. apply orb_false_r.
Qed.

Lemma simple_count_filter (lines : list string) (acc : Z) :
  fold_left
    (fun comment_count line =>
       if startswith (strip line) "#" then comment_count + 1
       else comment_count)
    lines acc
  = acc + marker_lines "Python" lines.
Proof.
  revert acc. unfold marker_lines.
  induction lines as [|l lines IH]; intros acc; cbn [fold_left List.filter].
  - cbn. lia.
  - rewrite IH, python_hash_marker.
    destruct (startswith (strip l) "#"); cbn [List.length]; lia.
Qed.

(** When the tokenizer gives up on a Python file that reads as UTF-8,
    the comment count of the Python analyzer is the one the generic
    scan gives for the language Python on the same lines. *)
Theorem python_fallback_is_generic_scan (body : FileBody)
    (lines : list string) :
  tokenize_rb body = TokenizeDecodeOrTokenError ->
  read_utf8 body = ReadLines lines ->
  PythonAnalyzer._count_comment_lines body
  = scan_comment_lines (scan "Python" lines).
Proof.
  intros Htok Hread.
  unfold PythonAnalyzer._count_comment_lines,
    PythonAnalyzer._count_comment_lines_simple.
  rewrite Htok, Hread, simple_count_filter.
  rewrite (single_line_language_scan "Python" lines)
    by (vm_compute; reflexivity).
  reflexivity.
Qed.

Lemma python_fallback_is_generic_scan_witness :
  let lines := [ln "# header"; ln "x = (1,"; ln "  # inside"; LF] in
  let body :=
    mkFileBody (ReadLines lines) None TokenizeDecodeOrTokenError None in
  tokenize_rb body = TokenizeDecodeOrTokenError
  /\ read_utf8 body = ReadLines lines
  /\ PythonAnalyzer._count_comment_lines body
     = scan_comment_lines (scan "Python" lines)
  /\ PythonAnalyzer._count_comment_lines body = 2.
Proof.
  intros lines body. split; [reflexivity|]. split; [reflexivity|].
  split; [|vm_compute; reflexivity].
  exact (python_fallback_is_generic_scan body lines eq_refl eq_refl).
Defined.

(** The line counts of a Python file do not depend on whether the file
    parses: with any other outcome of the parser the analyzer returns
    the same path, language and four counts; when the file does not
    parse it reports no docstring, no class and no function. *)
Theorem python_counts_ignore_parser (file_path : Path) (body : FileBody)
    (outcome : option ast_module) :
  exists st st',
    PythonAnalyzer.analyze file_path body = inr st
    /\ PythonAnalyzer.analyze file_path (with_ast body outcome) = inr st'
    /\ path st' = path st /\ language st' = language st
    /\ total_lines st' = total_lines st /\ code_lines st' = code_lines st
    /\ comment_lines st' = comment_lines st
    /\ blank_lines st' = blank_lines st
    /\ match outcome with
       | Some _ => True
       | None =>
           has_docstring st' = Some false
           /\ num_classes st' = Some 0 /\ num_functions st' = Some 0
       end.
Proof.
  unfold PythonAnalyzer.analyze.
  assert (_count_lines (with_ast body outcome) = _count_lines body) as ->
    by reflexivity.
  assert (PythonAnalyzer._count_comment_lines (with_ast body outcome)
          = PythonAnalyzer._count_comment_lines body) as -> by reflexivity.
  destruct (_count_lines body) as [[total blank] lines].
  destruct (total =? 0).
  - do 2 eexists. split; [reflexivity|]. split; [reflexivity|].
    cbn. repeat (split; [reflexivity|]).
    destruct outcome; [exact I | repeat split; reflexivity].
  - destruct (PythonAnalyzer._extract_ast_info body) as [[doc nc] nf].
    destruct (PythonAnalyzer._extract_ast_info (with_ast body outcome))
      as [[doc' nc'] nf'] eqn:E.
    do 2 eexists. split; [reflexivity|]. split; [reflexivity|].
    cbn [path language total_lines code_lines comment_lines blank_lines
         has_docstring num_classes num_functions].
    repeat (split; [reflexivity|]).
    destruct outcome; [exact I|].
    unfold PythonAnalyzer._extract_ast_info in E. cbn in E.
    injection E as <- <- <-. repeat split; reflexivity.
Qed.

Lemma count_defs_filter (kinds : list NodeKind) (acc : Z * Z) :
  fold_left PythonAnalyzer.count_defs kinds acc
  = (acc.1 + Z.of_nat (List.length (List.filter is_class kinds)),
     acc.2 + Z.of_nat (List.length (List.filter is_function kinds))).
Proof.
  revert acc. induction kinds as [|k kinds IH]; intros [c f].
  - cbn. f_equal; lia.
  - cbn [fold_left List.filter]. rewrite IH.
    destruct k; cbn [PythonAnalyzer.count_defs is_class is_function fst snd
                     List.length]; f_equal; lia.
Qed.

(** For a file with lines that parses, the analyzer reports the number
    of class definitions and the number of function definitions,
    [async] ones included, among all the nodes of the syntax tree, at
    whatever depth; and whether the module has a docstring. *)
Theorem python_counts_definitions (file_path : Path) (body : FileBody)
    (tree : ast_module) :
  ast_parse body = Some tree ->
  file_lines body <> [] ->
  exists st,
    PythonAnalyzer.analyze file_path body = inr st
    /\ num_classes st
       = Some (Z.of_nat
                 (List.length
                    (List.filter is_class
                       (PythonAnalyzer.walk (module_tree tree)))))
    /\ num_functions st
       = Some (Z.of_nat
                 (List.length
                    (List.filter is_function
                       (PythonAnalyzer.walk (module_tree tree)))))
    /\ has_docstring st
       = Some (match module_docstring tree with
               | Some _ => true
               | None => false
               end).
Proof.
  intros Hast Hlines. unfold PythonAnalyzer.analyze.
  rewrite count_lines_counted. unfold counted.
  destruct (Z.of_nat (List.length (file_lines body)) =? 0) eqn:E.
  - apply Z.eqb_eq in E. destruct (file_lines body); [contradiction|].
    cbn [List.length] in E. lia.
  - unfold PythonAnalyzer._extract_ast_info. rewrite Hast, count_defs_filter.
    cbn [fst snd]. eexists. split; [reflexivity|].
    cbn [num_classes num_functions has_docstring].
    repeat split; reflexivity.
Qed.

Lemma python_counts_definitions_witness :
  let tree :=
    mkAstModule (Some "doc")
      (AstNode OtherNode
         [AstNode ClassDef
            [AstNode FunctionDef [AstNode AsyncFunctionDef []];
             AstNode ClassDef []];
          AstNode OtherNode []]) in
  let body :=
    mkFileBody (ReadLines [ln "class A: ..."]) None TokenizeFails (Some tree) in
  ast_parse body = Some tree
  /\ file_lines body <> []
  /\ exists st,
       PythonAnalyzer.analyze ["a.py"] body = inr st
       /\ num_classes st = Some 2 /\ num_functions st = Some 2
       /\ has_docstring st = Some true.
Proof.
  intros tree body.
  assert (file_lines body <> []) as Hl by discriminate.
  split; [reflexivity|]. split; [exact Hl|].
  destruct (python_counts_definitions ["a.py"] body tree eq_refl Hl)
    as (st & Hst & Hc & Hf & Hd).
  exists st. split; [exact Hst|]. split; [exact Hc|]. split; [exact Hf|].
  exact Hd.
Defined.

(** *** Files that cannot be read *)

Lemma unreadable_no_lines (body : FileBody) :
  unreadable body -> _count_lines body = (0, 0, []).
Proof.
  unfold _count_lines. intros [H|[H1 H2]].
  - rewrite H. reflexivity.
  - rewrite H1, H2. reflexivity.
Qed.

(** A file that cannot be read is not an error for any analyzer: each
    one returns statistics with four zero counts, whatever the
    tokenizer and the parser would make of the file. *)
Theorem unreadable_file_zero_stats (file_path : Path) (body : FileBody) :
  unreadable body ->
  GenericAnalyzer.analyze file_path body
  = inr (mkFileStats file_path 0 0 0 0
           (_get_language_for_file file_path) None None None)
  /\ PythonAnalyzer.analyze file_path body
     = inr (mkFileStats file_path 0 0 0 0 "Python"
              (Some false) (Some 0) (Some 0))
  /\ MarkdownAnalyzer.analyze file_path body
     = inr (mkFileStats file_path 0 0 0 0 "Markdown" None None None).
Proof.
  intros H. unfold GenericAnalyzer.analyze, PythonAnalyzer.analyze,
    MarkdownAnalyzer.analyze.
  rewrite (unreadable_no_lines body H). repeat split; reflexivity.
Qed.

Lemma unreadable_file_zero_stats_witness :
  let body :=
    mkFileBody ReadUnicodeDecodeError None
      (Tokens [mkToken COMMENT 1]) None in
  unreadable body
  /\ PythonAnalyzer.analyze ["a.py"] body
     = inr (mkFileStats ["a.py"] 0 0 0 0 "Python"
              (Some false) (Some 0) (Some 0)).
Proof.
  intros body.
  assert (unreadable body) as H by (right; split; reflexivity).
  split; [exact H|].
  exact (proj1 (proj2 (unreadable_file_zero_stats ["a.py"] body H))).
Defined.

(** *** The Markdown analyzer *)

(** The statistics of a Markdown file satisfy the invariant of
    [FileStats]: no line is a comment line and every line that is not
    blank is a code line. *)
Theorem markdown_stats_ok (file_path : Path) (body : FileBody) :
  exists st,
    MarkdownAnalyzer.analyze file_path body = inr st
    /\ stats_ok st
    /\ comment_lines st = 0
    /\ code_lines st = nonblank_count (file_lines body)
    /\ blank_lines st
       = Z.of_nat (List.length (List.filter is_blank (file_lines body))).
Proof.
  unfold MarkdownAnalyzer.analyze. rewrite count_lines_counted.
  unfold counted. eexists. split; [reflexivity|].
  pose proof (filter_blank_split (file_lines body)).
  pose proof (nonblank_count_nonneg (file_lines body)).
  unfold stats_ok.
  cbn [total_lines code_lines comment_lines blank_lines].
  repeat split; lia.
Qed.

End AnalyzerExtra.


(** * Further properties of the statistics model *)

Module ModelsExtra.
Import PyStr PyPath PyExc FileSystem Models Spec ModelsFacts.

Lemma Zsum_perm (l l' : list Z) : Permutation l l' -> Zsum l = Zsum l'.
Proof.
  induction 1 as [|x l l' _ IH|x y l|l l' l'' _ IH1 _ IH2].
  - reflexivity.
  - unfold Zsum in *. cbn. lia.
  - unfold Zsum. cbn. lia.
  - congruence.
Qed.

Lemma Zsum_map_perm {A} (f : A -> Z) (l l' : list A) :
  Permutation l l' -> Zsum (map f l) = Zsum (map f l').
Proof. intros H. apply Zsum_perm, Permutation_map, H. Qed.

(** *** The Python statistics of a directory *)

Lemma python_stats_eq (a b : PythonStats) :
  stat_num_classes a = stat_num_classes b ->
  stat_num_functions a = stat_num_functions b ->
  stat_files_with_docstring a = stat_files_with_docstring b ->
  stat_python_files a = stat_python_files b ->
  a = b.
Proof. destruct a, b. cbn. congruence. Qed.

Lemma fold_python_file_step (fs : list FileStats) (acc : PythonStats) :
  fold_left python_file_step fs acc
  = python_stats_add acc (flat_python_stats fs).
Proof.
  revert acc. induction fs as [|f fs IH]; intros acc.
  - destruct acc. apply python_stats_eq; cbn; lia.
  - cbn [fold_left]. rewrite IH.
    unfold python_file_step, flat_python_stats, python_stats_add.
    unfold Zsum.
    cbn [map fold_right stat_num_classes stat_num_functions
         stat_files_with_docstring stat_python_files].
    unfold classes_of, functions_of, docstring_of, python_of, is_python_file.
    destruct (String.eqb (lower (language f)) "python").
    + destruct (num_classes f), (num_functions f), (has_docstring f) as [[]|];
        apply python_stats_eq; cbn; lia.
    + apply python_stats_eq; cbn; lia.
Qed.

Lemma flat_python_stats_app (l1 l2 : list FileStats) :
  flat_python_stats (l1 ++ l2)
  = python_stats_add (flat_python_stats l1) (flat_python_stats l2).
Proof.
  unfold flat_python_stats, python_stats_add. rewrite !map_app, !Zsum_app.
  reflexivity.
Qed.

Lemma python_stats_add_assoc (a b c : PythonStats) :
  python_stats_add (python_stats_add a b) c
  = python_stats_add a (python_stats_add b c).
Proof. apply python_stats_eq; cbn; lia. Qed.

Lemma get_python_stats_flat (d : DirectoryStats) :
  get_python_stats d = flat_python_stats (all_files d).
Proof.
  induction d as [p fs subs IH] using DirectoryStats_tree_ind.
  rewrite all_files_unfold. cbn [get_python_stats files subdirectories].
  rewrite fold_python_file_step, flat_python_stats_app.
  assert (python_stats_add (mkPythonStats 0 0 0 0) (flat_python_stats fs)
          = flat_python_stats fs) as ->
    by (apply python_stats_eq; cbn; lia).
  generalize (flat_python_stats fs) as acc.
  induction IH as [|s subs Hs _ IHsubs]; intros acc.
  - cbn. apply python_stats_eq; cbn; lia.
  - cbn [fold_left flat_map]. rewrite IHsubs, Hs, flat_python_stats_app.
    apply python_stats_add_assoc.
Qed.

Lemma Zsum_bounds {A} (f g : A -> Z) (l : list A) :
  (forall x, f x <= g x) -> Zsum (map f l) <= Zsum (map g l).
Proof.
  intros H. unfold Zsum. induction l as [|x l IH]; cbn; [lia|].
  specialize (H x). lia.
Qed.

(** The Python statistics of a directory are sums over all the files of
    its tree whose language is Python in any letter case: the files
    themselves, their classes, their functions and those with a
    docstring, a missing count adding nothing.  Files with a docstring
    are no more than the Python files, which are no more than the
    files. *)
Theorem python_stats_are_sums (d : DirectoryStats) :
  get_python_stats d = flat_python_stats (all_files d)
  /\ 0 <= stat_files_with_docstring (get_python_stats d)
       <= stat_python_files (get_python_stats d)
  /\ stat_python_files (get_python_stats d) <= total_files d.
Proof.
  split; [apply get_python_stats_flat|]. rewrite get_python_stats_flat.
  cbn [flat_python_stats stat_files_with_docstring stat_python_files].
  rewrite total_files_count, <- (Zsum_ones (all_files d)).
  assert (Zsum (map (fun _ : FileStats => 0) (all_files d)) = 0) as Hzero
    by (unfold Zsum; induction (all_files d); cbn; lia).
  repeat split.
  - rewrite <- Hzero. apply Zsum_bounds. intros f. unfold docstring_of.
    destruct (is_python_file f); [|lia].
    destruct (has_docstring f) as [[]|]; lia.
  - apply Zsum_bounds. intros f. unfold docstring_of, python_of.
    destruct (is_python_file f); [|lia].
    destruct (has_docstring f) as [[]|]; lia.
  - apply Zsum_bounds. intros f. unfold python_of.
    destruct (is_python_file f); lia.
Qed.

(** *** Sorting *)

(** Sorting the files by size changes no aggregate of any directory:
    the five totals and the Python statistics are what they were. *)
Theorem sort_keeps_aggregates (d : DirectoryStats) :
  total_files (sort_files_by_size d) = total_files d
  /\ total_lines_dir (sort_files_by_size d) = total_lines_dir d
  /\ total_code_lines (sort_files_by_size d) = total_code_lines d
  /\ total_comment_lines (sort_files_by_size d) = total_comment_lines d
  /\ total_blank_lines (sort_files_by_size d) = total_blank_lines d
  /\ get_python_stats (sort_files_by_size d) = get_python_stats d.
Proof.
  assert (Permutation (all_files (sort_files_by_size d)) (all_files d)) as Hp.
  { induction d as [p fs subs IH] using DirectoryStats_tree_ind.
    rewrite !all_files_unfold.
    cbn [sort_files_by_size files subdirectories].
    apply Permutation_app.
    - symmetry. apply (sort_desc_stably_sorted total_lines fs).
    - induction IH as [|s subs Hs _ IHsubs]; cbn; [constructor|].
      apply Permutation_app; assumption. }
  rewrite !total_files_count.
  rewrite !(aggregate_recursive _ _ total_lines_dir_unfold),
    !(aggregate_recursive _ _ total_code_lines_unfold),
    !(aggregate_recursive _ _ total_comment_lines_unfold),
    !(aggregate_recursive _ _ total_blank_lines_unfold),
    !get_python_stats_flat.
  split; [rewrite (Permutation_length Hp); reflexivity|].
  repeat split; try (apply Zsum_map_perm, Hp).
  unfold flat_python_stats. f_equal; apply Zsum_map_perm, Hp.
Qed.

Lemma insert_desc_front {A} (key : A -> Z) (x : A) (l : list A) :
  Forall (fun y => key y <= key x) l -> insert_desc key x l = x :: l.
Proof.
  destruct 1 as [|y l Hy _]; [reflexivity|]. cbn.
  apply Z.leb_le in Hy. rewrite Hy. reflexivity.
Qed.

Lemma sort_desc_sorted_id {A} (key : A -> Z) (l : list A) :
  StronglySorted (fun a b => key b <= key a) l -> sort_desc key l = l.
Proof.
  unfold sort_desc. induction 1 as [|x l Hl IH Hx]; [reflexivity|].
  cbn [fold_right]. rewrite IH. apply insert_desc_front, Hx.
Qed.

(** Sorting a tree that is already sorted changes nothing: the second
    call of [sort_files_by_size] returns the tree of the first. *)
Theorem sort_files_by_size_idempotent (d : DirectoryStats) :
  sort_files_by_size (sort_files_by_size d) = sort_files_by_size d.
Proof.
  induction d as [p fs subs IH] using DirectoryStats_tree_ind.
  cbn [sort_files_by_size dir_path files subdirectories]. f_equal.
  - apply sort_desc_sorted_id.
    apply (sort_desc_stably_sorted total_lines fs).
  - rewrite map_map. induction IH as [|s subs Hs _ IHsubs]; [reflexivity|].
    cbn [map]. rewrite Hs, IHsubs. reflexivity.
Qed.

(** *** From the files to the directory *)

(** When the counts of every file of a tree add up to the total of the
    file, the totals of the directory add up as well. *)
Theorem directory_totals_add_up (d : DirectoryStats) :
  Forall adds_up (all_files d) ->
  total_code_lines d + total_comment_lines d + total_blank_lines d
  = total_lines_dir d.
Proof.
  rewrite (aggregate_recursive _ _ total_lines_dir_unfold),
    (aggregate_recursive _ _ total_code_lines_unfold),
    (aggregate_recursive _ _ total_comment_lines_unfold),
    (aggregate_recursive _ _ total_blank_lines_unfold).
  unfold Zsum. induction 1 as [|f fs Hf _ IH]; cbn; [reflexivity|].
  unfold adds_up in Hf. lia.
Qed.

Lemma directory_totals_add_up_witness :
  let d :=
    mkDirectoryStats ["p"] [mkFileStats ["p"; "a.c"] 10 6 3 1 "C" None None None]
      [mkDirectoryStats ["p"; "s"]
         [mkFileStats ["p"; "s"; "b.c"] 5 5 0 0 "C" None None None] []] in
  Forall adds_up (all_files d)
  /\ total_code_lines d + total_comment_lines d + total_blank_lines d
     = total_lines_dir d.
Proof.
  intros d.
  assert (Forall adds_up (all_files d)) as H
    by (repeat constructor).
  split; [exact H|]. exact (directory_totals_add_up d H).
Defined.

End ModelsExtra.


(** * Further properties of the tree walker *)

Module WalkerExtra.
Import PyStr PyPath PyExc FileSystem Models Base Spec ModelsFacts WalkerFacts.
Import ProjectAnalyzer.

(** *** The files of the tree are the selected files *)

Lemma all_files_append_file_perm (d : DirectoryStats) (f : FileStats) :
  Permutation (all_files (append_file d f)) (all_files d ++ [f]).
Proof.
  rewrite !all_files_unfold. cbn [append_file files subdirectories].
  rewrite <- !app_assoc. apply Permutation_app_head, Permutation_app_comm.
Qed.

Lemma all_files_append_subdirectory_eq (d sub : DirectoryStats) :
  all_files (append_subdirectory d sub) = (all_files d ++ all_files sub)%list.
Proof.
  rewrite (all_files_unfold (append_subdirectory d sub)), (all_files_unfold d).
  cbn [append_subdirectory files subdirectories].
  rewrite flat_map_app, <- app_assoc. cbn. rewrite app_nil_r. reflexivity.
Qed.

Lemma no_file_no_stats (d : DirectoryStats) :
  total_files d <= 0 -> all_files d = [].
Proof.
  rewrite total_files_count. destruct (all_files d); [reflexivity|].
  cbn [List.length]. lia.
Qed.

Lemma analyzed_files_app (self : ProjectAnalyzer)
    (l1 l2 : list (Path * FileBody)) :
  analyzed_files self (l1 ++ l2)
  = (analyzed_files self l1 ++ analyzed_files self l2)%list.
Proof. apply flat_map_app. Qed.

Lemma selected_files_listed (self : ProjectAnalyzer) (dir_path : Path)
    (nm : string) (item : fsnode) (items : list fsnode) :
  selected_files self dir_path (FsDir nm None (item :: items))
  = (selected_files self dir_path (FsDir nm None [item])
     ++ selected_files self dir_path (FsDir nm None items))%list.
Proof. cbn [selected_files flat_map]. rewrite app_nil_r. reflexivity. Qed.

Lemma visit_files (self : ProjectAnalyzer) (dir_path : Path) (nm : string)
    (item : fsnode) (d0 d1 : DirectoryStats) :
  (forall p sub,
      _analyze_directory self p item = inr sub ->
      Permutation (all_files sub)
        (analyzed_files self (selected_files self p item))) ->
  visit self dir_path (inr d0) item = inr d1 ->
  Permutation (all_files d1)
    (all_files d0
     ++ analyzed_files self
          (selected_files self dir_path (FsDir nm None [item]))).
Proof.
  intros IH. unfold visit. cbn [selected_files flat_map].
  rewrite app_nil_r.
  destruct item as [fname body|dname err sub_items|oname|oname se];
    cbn [is_file is_dir entry_name file_body]; [| | |discriminate].
  - destruct (_should_analyze_file self (joinpath dir_path fname)).
    + unfold analyzed_files. cbn [flat_map fst snd]. rewrite app_nil_r.
      destruct (_analyze_file self (joinpath dir_path fname) body) as [f|].
      * intros [= <-]. apply all_files_append_file_perm.
      * intros [= <-]. rewrite app_nil_r. reflexivity.
    + intros [= <-]. cbn. rewrite app_nil_r. reflexivity.
  - destruct (negb (_should_ignore_dir self (joinpath dir_path dname))).
    + destruct (_analyze_directory self (joinpath dir_path dname)
                  (FsDir dname err sub_items)) as [e|sub] eqn:Hsub;
        [discriminate|].
      specialize (IH _ _ Hsub).
      destruct (total_files sub >? 0) eqn:Ht.
      * intros [= <-]. rewrite all_files_append_subdirectory_eq.
        apply Permutation_app_head, IH.
      * intros [= <-]. rewrite (no_file_no_stats sub) in IH by lia.
        apply Permutation_nil in IH. rewrite IH, app_nil_r. reflexivity.
    + intros [= <-]. cbn. rewrite app_nil_r. reflexivity.
  - intros [= <-]. cbn. rewrite app_nil_r. reflexivity.
Qed.

Lemma fold_visit_files (self : ProjectAnalyzer) (dir_path : Path)
    (nm : string) (items : list fsnode) :
  Forall
    (fun item =>
       forall p sub,
         _analyze_directory self p item = inr sub ->
         Permutation (all_files sub)
           (analyzed_files self (selected_files self p item)))
    items ->
  forall d0 d,
    fold_left (visit self dir_path) items (inr d0) = inr d ->
    Permutation (all_files d)
      (all_files d0
       ++ analyzed_files self
            (selected_files self dir_path (FsDir nm None items))).
Proof.
  induction 1 as [|item items Hitem _ IH]; intros d0 d.
  - cbn. intros [= <-]. rewrite app_nil_r. reflexivity.
  - cbn [fold_left].
    destruct (visit self dir_path (inr d0) item) as [e|d1] eqn:Hv.
    + rewrite fold_visit_raised. discriminate.
    + intros Hfold. rewrite selected_files_listed, analyzed_files_app.
      rewrite (IH d1 d Hfold).
      rewrite (visit_files self dir_path nm item d0 d1 Hitem Hv).
      rewrite <- app_assoc. reflexivity.
Qed.

Lemma analyze_directory_files (self : ProjectAnalyzer) (dir : fsnode) :
  forall p d,
    _analyze_directory self p dir = inr d ->
    Permutation (all_files d)
      (analyzed_files self (selected_files self p dir)).
Proof.
  induction dir as [nm body|nm|nm err items IH|nm se] using fsnode_tree_ind;
    intros p d; try discriminate.
  - destruct err as [e|].
    + cbn. destruct (is_PermissionError e); [|discriminate].
      intros [= <-]. reflexivity.
    + rewrite analyze_directory_listed. intros H.
      apply (fold_visit_files self p nm items IH _ _ H).
  - cbn. destruct (is_PermissionError se); [|discriminate].
    intros [= <-]. reflexivity.
Qed.

(** When [analyze] returns, the files of the tree are, up to their
    order, the statistics of the selected files on which no analyzer
    raises: pruning the empty directories and sorting lose no file and
    add none, and [total_files] of the root is their number. *)
Theorem tree_files_are_selected_files (self : ProjectAnalyzer)
    (node : fsnode) (stats : DirectoryStats) :
  ProjectAnalyzer.analyze self (Some node) = inr stats ->
  Permutation (all_files stats)
    (analyzed_files self (selected_files self (root_path self) node))
  /\ total_files stats
     = Z.of_nat
         (List.length
            (analyzed_files self (selected_files self (root_path self) node))).
Proof.
  intros H.
  destruct (analyze_returned _ _ _ H) as (node' & d & [= <-] & E & ->).
  assert (Permutation (all_files (sort_files_by_size d))
            (analyzed_files self (selected_files self (root_path self) node)))
    as Hp.
  { rewrite <- (sort_all_files_perm d). eapply analyze_directory_files, E. }
  split; [exact Hp|].
  rewrite total_files_count, (Permutation_length Hp). reflexivity.
Qed.

Lemma tree_files_are_selected_files_witness :
  let self := __init__ ["proj"] None None in
  exists stats,
    ProjectAnalyzer.analyze self (Some sample_project) = inr stats
    /\ map fst (selected_files self (root_path self) sample_project)
       = [["proj"; "src"; "a.c"]; ["proj"; "src"; "b.c"]; ["proj"; "z.py"]]
    /\ Permutation (all_files stats)
         (analyzed_files self
            (selected_files self (root_path self) sample_project))
    /\ total_files stats = 3.
Proof.
  intros self.
  destruct (ProjectAnalyzer.analyze self (Some sample_project))
    as [e|stats] eqn:E; [vm_compute in E; discriminate|].
  destruct (tree_files_are_selected_files self sample_project stats E)
    as [Hp Ht].
  exists stats. split; [reflexivity|]. split; [vm_compute; reflexivity|].
  split; [exact Hp|]. rewrite Ht. vm_compute. reflexivity.
Defined.

(** *** What the files of the tree are *)

Lemma selected_files_should (self : ProjectAnalyzer) (dir : fsnode) :
  forall p entry,
    In entry (selected_files self p dir) ->
    _should_analyze_file self entry.1 = true.
Proof.
  induction dir as [nm body|nm|nm err items IH|nm se] using fsnode_tree_ind;
    intros p entry; try (intros []).
  destruct err as [e|]; [intros []|]. cbn [selected_files].
  intros H. apply in_flat_map in H. destruct H as (item & Hitem & Hin).
  rewrite List.Forall_forall in IH. specialize (IH item Hitem).
  destruct item as [fname body|dname err sub_items|oname|oname se].
  - destruct (_should_analyze_file self (joinpath p fname)) eqn:Hs;
      [|destruct Hin].
    destruct Hin as [<-|[]]. exact Hs.
  - destruct (negb (_should_ignore_dir self (joinpath p dname)));
      [|destruct Hin].
    eapply IH, Hin.
  - destruct Hin.
  - destruct Hin.
Qed.

(** Every file of the tree that [analyze] returns was selected and is
    supported: its name does not start with a dot, one of the two
    analyzers supports its extension, and its extension is in the
    explicit set of extensions when there is one. *)
Theorem tree_files_are_wanted (root_path : Path)
    (file_extensions ignore_dirs : option (gset string))
    (root : option fsnode) (stats : DirectoryStats) (f : FileStats) :
  let self := __init__ root_path file_extensions ignore_dirs in
  ProjectAnalyzer.analyze self root = inr stats ->
  In f (all_files stats) ->
  startswith (name (path f)) "." = false
  /\ (exists a, In a (analyzers self) /\ can_analyze a (path f) = true)
  /\ (forall exts,
        file_extensions = Some exts -> exts <> ∅ ->
        lower (suffix (path f)) ∈ exts).
Proof.
  intros self H Hin.
  destruct root as [node|]; [|discriminate].
  destruct (tree_files_are_selected_files self node stats H) as [Hp _].
  apply (Permutation_in _ Hp) in Hin. unfold analyzed_files in Hin.
  apply in_flat_map in Hin. destruct Hin as ([p body] & Hsel & Hf).
  cbn [fst snd] in Hf.
  destruct (_analyze_file self p body) as [f'|] eqn:Hana; [|destruct Hf].
  destruct Hf as [<-|[]].
  apply selected_files_should in Hsel. cbn [fst] in Hsel.
  destruct (analyze_file_keeps_path self p body f' eq_refl Hana)
    as [-> Hcan].
  unfold _should_analyze_file in Hsel.
  destruct (startswith (name p) "."); [discriminate|].
  split; [reflexivity|]. split; [exact Hcan|].
  intros exts -> Hne. cbn [ProjectAnalyzer.file_extensions self __init__]
    in Hsel.
  rewrite bool_decide_eq_false_2 in Hsel by exact Hne.
  apply bool_decide_eq_true_1 in Hsel. exact Hsel.
Qed.

(** With the set of extensions [.md] and [.c], the only file of the
    sample project in the tree is a C file: no analyzer supports the
    Markdown ones. *)
Lemma tree_files_are_wanted_witness :
  let self := __init__ ["proj"] (Some {[ ".md"; ".c" ]}) None in
  exists stats f,
    ProjectAnalyzer.analyze self (Some sample_project) = inr stats
    /\ In f (all_files stats)
    /\ map path (all_files stats)
       = [["proj"; "src"; "b.c"]; ["proj"; "src"; "a.c"]]
    /\ startswith (name (path f)) "." = false
    /\ (exists a, In a (analyzers self) /\ can_analyze a (path f) = true).
Proof.
  intros self.
  destruct (ProjectAnalyzer.analyze self (Some sample_project))
    as [e|stats] eqn:E; [vm_compute in E; discriminate|].
  assert (map path (all_files stats)
          = [["proj"; "src"; "b.c"]; ["proj"; "src"; "a.c"]]) as Hpaths
    by (vm_compute in E; injection E as <-; reflexivity).
  destruct (all_files stats) as [|f fs] eqn:Hfs; [discriminate|].
  assert (In f (all_files stats)) as Hin by (rewrite Hfs; left; reflexivity).
  destruct (tree_files_are_wanted ["proj"] (Some {[ ".md"; ".c" ]}) None
              (Some sample_project) stats f E Hin) as (H1 & H2 & _).
  exists stats, f. split; [reflexivity|]. split; [exact Hin|].
  split; [rewrite Hfs; exact Hpaths|]. split; [exact H1 | exact H2].
Defined.

(** *** The tree mirrors the disk *)

Lemma mirrors_unfold (self : ProjectAnalyzer) (d : DirectoryStats) :
  mirrors_disk self d
  <-> placed_locally self d
      /\ forall sub, In sub (subdirectories d) -> mirrors_disk self sub.
Proof.
  unfold mirrors_disk. split.
  - intros H. split.
    + apply H. rewrite nodes_unfold. left. reflexivity.
    + intros sub Hsub n Hn. apply H. rewrite nodes_unfold. right.
      apply in_flat_map. eauto.
  - intros [Hd Hsubs] n Hn. rewrite nodes_unfold in Hn.
    destruct Hn as [<-|Hn]; [exact Hd|].
    apply in_flat_map in Hn. destruct Hn as (sub & Hsub & Hn).
    exact (Hsubs sub Hsub n Hn).
Qed.

Lemma sort_dir_path (d : DirectoryStats) :
  dir_path (sort_files_by_size d) = dir_path d.
Proof. destruct d. reflexivity. Qed.

Lemma mirrors_sort (self : ProjectAnalyzer) (d : DirectoryStats) :
  mirrors_disk self d -> mirrors_disk self (sort_files_by_size d).
Proof.
  induction d as [p fs subs IH] using DirectoryStats_tree_ind.
  rewrite !mirrors_unfold. intros [[Hfiles Hsubs] Hrec].
  cbn [files subdirectories dir_path] in Hfiles, Hsubs, Hrec.
  unfold placed_locally.
  cbn [sort_files_by_size files subdirectories dir_path].
  split; [split|].
  - intros f Hf. apply Hfiles. eapply Permutation_in; [|exact Hf].
    symmetry. apply (sort_desc_stably_sorted total_lines fs).
  - intros sub Hsub. apply in_map_iff in Hsub.
    destruct Hsub as (s0 & <- & Hs0). rewrite sort_dir_path.
    apply Hsubs, Hs0.
  - intros sub Hsub. apply in_map_iff in Hsub.
    destruct Hsub as (s0 & <- & Hs0).
    rewrite List.Forall_forall in IH. apply IH; [exact Hs0|].
    apply Hrec, Hs0.
Qed.

Lemma visit_mirrors (self : ProjectAnalyzer) (p : Path) (item : fsnode)
    (d0 d1 : DirectoryStats) :
  analyzers self = [PythonAnalyzer.analyzer; GenericAnalyzer.analyzer] ->
  (forall q sub,
      _analyze_directory self q item = inr sub ->
      dir_path sub = q /\ mirrors_disk self sub) ->
  dir_path d0 = p -> mirrors_disk self d0 ->
  visit self p (inr d0) item = inr d1 ->
  dir_path d1 = p /\ mirrors_disk self d1.
Proof.
  intros Ha IH Hp Hm. unfold visit.
  destruct (proj1 (mirrors_unfold self d0) Hm) as [[Hfiles Hsubs] Hrec].
  destruct item as [fname body|dname err sub_items|oname|oname se];
    cbn [is_file is_dir entry_name file_body]; [| | |discriminate].
  - destruct (_should_analyze_file self (joinpath p fname));
      [|intros [= <-]; split; [exact Hp | exact Hm]].
    destruct (_analyze_file self (joinpath p fname) body) as [f|] eqn:Hf;
      [|intros [= <-]; split; [exact Hp | exact Hm]].
    intros [= <-]. split; [exact Hp|]. apply mirrors_unfold.
    unfold placed_locally. cbn [append_file files subdirectories dir_path].
    split; [split; [|exact Hsubs]|exact Hrec].
    intros f' Hf'. apply in_app_or in Hf'. destruct Hf' as [Hf'|[<-|[]]].
    + apply Hfiles, Hf'.
    + destruct (analyze_file_keeps_path self _ _ _ Ha Hf) as [-> _].
      exists fname. rewrite Hp. reflexivity.
  - destruct (negb (_should_ignore_dir self (joinpath p dname))) eqn:Hign;
      [|intros [= <-]; split; [exact Hp | exact Hm]].
    destruct (_analyze_directory self (joinpath p dname)
                (FsDir dname err sub_items)) as [e|sub] eqn:Hsub;
      [discriminate|].
    destruct (IH _ _ Hsub) as [Hsp Hsm].
    destruct (total_files sub >? 0);
      [|intros [= <-]; split; [exact Hp | exact Hm]].
    intros [= <-]. split; [exact Hp|]. apply mirrors_unfold.
    unfold placed_locally.
    cbn [append_subdirectory files subdirectories dir_path].
    split; [split; [exact Hfiles|]|].
    + intros s Hs. apply in_app_or in Hs. destruct Hs as [Hs|[<-|[]]].
      * apply Hsubs, Hs.
      * rewrite Hsp, Hp. apply negb_true_iff in Hign. eauto.
    + intros s Hs. apply in_app_or in Hs. destruct Hs as [Hs|[<-|[]]].
      * apply Hrec, Hs.
      * exact Hsm.
  - intros [= <-]. split; [exact Hp | exact Hm].
Qed.

Lemma analyze_directory_mirrors (self : ProjectAnalyzer) (dir : fsnode) :
  analyzers self = [PythonAnalyzer.analyzer; GenericAnalyzer.analyzer] ->
  forall p d,
    _analyze_directory self p dir = inr d ->
    dir_path d = p /\ mirrors_disk self d.
Proof.
  intros Ha.
  assert (forall p, mirrors_disk self (mkDirectoryStats p [] [])) as Hempty.
  { intros p. apply mirrors_unfold.
    split; [split|]; intros x []. }
  induction dir as [nm body|nm|nm err items IH|nm se] using fsnode_tree_ind;
    intros p d; try discriminate;
    [|cbn; destruct (is_PermissionError se); [|discriminate];
      intros [= <-]; split; [reflexivity | apply Hempty]].
  destruct err as [e|].
  - cbn. destruct (is_PermissionError e); [|discriminate].
    intros [= <-]. split; [reflexivity | apply Hempty].
  - rewrite analyze_directory_listed.
    assert (forall d0,
               dir_path d0 = p -> mirrors_disk self d0 ->
               fold_left (visit self p) items (inr d0) = inr d ->
               dir_path d = p /\ mirrors_disk self d) as Hfold.
    { induction IH as [|item items Hitem _ IHitems]; intros d0 Hp Hm.
      - cbn. intros [= <-]. auto.
      - cbn [fold_left].
        destruct (visit self p (inr d0) item) as [e|d1] eqn:Hv.
        + rewrite fold_visit_raised. discriminate.
        + destruct (visit_mirrors self p item d0 d1 Ha Hitem Hp Hm Hv).
          apply IHitems; assumption. }
    apply Hfold; [reflexivity | apply Hempty].
Qed.

(** The tree that [analyze] returns mirrors the disk: the root node
    has the root path, every file of a node lies in the directory of
    the node, and so does every subdirectory of a node, none of which
    is a directory that the walker ignores. *)
Theorem tree_mirrors_disk (root_path : Path)
    (file_extensions ignore_dirs : option (gset string))
    (root : option fsnode) (stats : DirectoryStats) :
  let self := __init__ root_path file_extensions ignore_dirs in
  ProjectAnalyzer.analyze self root = inr stats ->
  dir_path stats = root_path /\ mirrors_disk self stats.
Proof.
  intros self H.
  destruct (analyze_returned _ _ _ H) as (node & d & -> & E & ->).
  destruct (analyze_directory_mirrors self node eq_refl _ _ E) as [Hp Hm].
  rewrite sort_dir_path. split; [exact Hp | apply mirrors_sort, Hm].
Qed.

Lemma tree_mirrors_disk_witness :
  let self := __init__ ["proj"] None None in
  exists stats,
    ProjectAnalyzer.analyze self (Some sample_project) = inr stats
    /\ dir_path stats = ["proj"] /\ mirrors_disk self stats.
Proof.
  intros self.
  destruct (ProjectAnalyzer.analyze self (Some sample_project))
    as [e|stats] eqn:E; [vm_compute in E; discriminate|].
  exists stats. split; [reflexivity|].
  exact (tree_mirrors_disk ["proj"] None None (Some sample_project) stats E).
Defined.

(** *** Selection by extension and by name *)

Lemma elem_of_union_fold (l : list BaseAnalyzer) (acc : gset string)
    (x : string) :
  x ∈ fold_left
        (fun extensions analyzer =>
           extensions ∪ supported_extensions analyzer) l acc
  <-> x ∈ acc \/ exists a, In a l /\ x ∈ supported_extensions a.
Proof.
  revert acc. induction l as [|a l IH]; intros acc; cbn [fold_left].
  - split; [auto|]. intros [H|(a & [] & _)]. exact H.
  - rewrite IH, elem_of_union. split.
    + intros [[H|H]|(b & Hb & Hx)]; [auto| |].
      * right. exists a. split; [left; reflexivity | exact H].
      * right. exists b. split; [right; exact Hb | exact Hx].
    + intros [H|(b & [<-|Hb] & Hx)]; [auto|auto|].
      right. exists b. auto.
Qed.

(** Without an explicit set of extensions, the walker selects a file
    exactly when its name does not start with a dot and its extension,
    in lower case, is one of [get_supported_extensions], the set that
    the command line lists. *)
Theorem selection_follows_supported_extensions (self : ProjectAnalyzer)
    (file_path : Path) :
  ProjectAnalyzer.file_extensions self = None ->
  (_should_analyze_file self file_path = true
   <-> startswith (name file_path) "." = false
       /\ lower (suffix file_path) ∈ get_supported_extensions self).
Proof.
  intros Hnone. unfold _should_analyze_file, get_supported_extensions.
  rewrite Hnone, elem_of_union_fold.
  destruct (startswith (name file_path) ".").
  - split; [discriminate | intros [H _]; discriminate].
  - rewrite existsb_exists. unfold can_analyze. split.
    + intros (a & Ha & Hcan). split; [reflexivity|]. right. exists a.
      split; [exact Ha|]. apply bool_decide_eq_true in Hcan. exact Hcan.
    + intros [_ [H|(a & Ha & Hx)]]; [set_solver|].
      exists a. split; [exact Ha|]. apply bool_decide_eq_true. exact Hx.
Qed.

Lemma selection_follows_supported_extensions_witness :
  let self := __init__ ["proj"] None None in
  ProjectAnalyzer.file_extensions self = None
  /\ (_should_analyze_file self ["proj"; "Main.JAVA"] = true
      <-> startswith (name ["proj"; "Main.JAVA"]) "." = false
          /\ lower (suffix ["proj"; "Main.JAVA"])
               ∈ get_supported_extensions self)
  /\ _should_analyze_file self ["proj"; "Main.JAVA"] = true.
Proof.
  intros self. split; [reflexivity|]. split; [|vm_compute; reflexivity].
  exact (selection_follows_supported_extensions self ["proj"; "Main.JAVA"]
           eq_refl).
Defined.

(** The directory names that a caller gives are added to the built-in
    ones, never put in their place: a directory is ignored exactly when
    its name is built in, or given by the caller, or starts with a dot
    without being [.] or [..]. *)
Theorem ignored_directories (root_path dir_path : Path)
    (file_extensions ignore_dirs : option (gset string)) :
  _should_ignore_dir (__init__ root_path file_extensions ignore_dirs) dir_path
  = true
  <-> name dir_path ∈ IGNORED_DIRS
      \/ (exists extra, ignore_dirs = Some extra /\ name dir_path ∈ extra)
      \/ (startswith (name dir_path) "." = true
          /\ name dir_path <> "." /\ name dir_path <> "..").
Proof.
  unfold _should_ignore_dir.
  cbn [ProjectAnalyzer.ignore_dirs __init__].
  set (nm := name dir_path).
  set (listed :=
         match ignore_dirs with
         | Some extra => IGNORED_DIRS ∪ extra
         | None => IGNORED_DIRS
         end).
  assert (nm ∈ listed
          <-> nm ∈ IGNORED_DIRS
              \/ exists extra, ignore_dirs = Some extra /\ nm ∈ extra) as Hin.
  { subst listed. destruct ignore_dirs as [extra|].
    - rewrite elem_of_union. split.
      + intros [H|H]; [auto | right; eauto].
      + intros [H|(x & [= <-] & H)]; auto.
    - split; [auto|]. intros [H|(x & Hx & _)]; [exact H | discriminate]. }
  assert (startswith nm "." && negb (String.eqb nm "." || String.eqb nm "..")
          = true
          <-> startswith nm "." = true /\ nm <> "." /\ nm <> "..") as Hhid.
  { rewrite andb_true_iff, negb_true_iff, orb_false_iff.
    rewrite !String.eqb_neq. reflexivity. }
  destruct (decide (nm ∈ listed)) as [Hd|Hd].
  - rewrite bool_decide_eq_true_2 by exact Hd. apply Hin in Hd.
    split; [intros _|reflexivity]. destruct Hd; auto.
  - rewrite bool_decide_eq_false_2 by exact Hd.
    destruct (startswith nm "."
              && negb (String.eqb nm "." || String.eqb nm "..")) eqn:E.
    + split; [intros _|reflexivity]. right. right. apply Hhid. reflexivity.
    + split; [discriminate|]. intros [H|[H|H]].
      * exfalso. apply Hd, Hin. auto.
      * exfalso. apply Hd, Hin. auto.
      * apply Hhid in H. discriminate.
Qed.

End WalkerExtra.


(** * Properties of the command line *)

Module CliFacts.
Import PyStr PyPath PyExc FileSystem Models Base Spec.
Import ProjectAnalyzer Cli.

Lemma lower_char_idempotent (c : ascii) :
  lower_char (lower_char c) = lower_char c.
Proof. destruct c as [[] [] [] [] [] [] [] []]; reflexivity. Qed.

Lemma lower_idempotent (s : string) : lower (lower s) = lower s.
Proof.
  induction s as [|c s IH]; [reflexivity|]. cbn [lower].
  rewrite lower_char_idempotent, IH. reflexivity.
Qed.

Lemma lower_dot_prefix (rest : string) :
  String.prefix "." (lower (String "." rest)) = true.
Proof.
  cbn [lower]. change (lower_char ".") with "."%char.
  cbn [String.prefix].
  destruct (Ascii.ascii_dec "." "."); [|contradiction].
  apply PyStrFacts.prefix_empty.
Qed.

Lemma normalize_extension_dot (ext : string) :
  startswith (normalize_extension ext) "." = true.
Proof.
  unfold normalize_extension, startswith.
  destruct (String.prefix "." ext) eqn:E.
  - destruct ext as [|c rest]; [discriminate|]. cbn [String.prefix] in E.
    destruct (Ascii.ascii_dec "." c) as [<-|]; [|discriminate].
    apply lower_dot_prefix.
  - apply lower_dot_prefix.
Qed.

Lemma elem_of_normalized (exts : list string) (acc : gset string)
    (x : string) :
  x ∈ fold_left
        (fun normalized ext => normalized ∪ {[ normalize_extension ext ]})
        exts acc
  <-> x ∈ acc \/ exists ext, In ext exts /\ x = normalize_extension ext.
Proof.
  revert acc. induction exts as [|e exts IH]; intros acc; cbn [fold_left].
  - split; [auto|]. intros [H|(e & [] & _)]. exact H.
  - rewrite IH, elem_of_union, elem_of_singleton. split.
    + intros [[H|H]|(b & Hb & Hx)]; [auto| |].
      * right. exists e. split; [left; reflexivity | exact H].
      * right. exists b. split; [right; exact Hb | exact Hx].
    + intros [H|(b & [<-|Hb] & Hx)]; [auto|auto|].
      right. exists b. auto.
Qed.

(** [parse_extensions] returns no set exactly for no list or an empty
    list.  Any other list gives a set that is not empty and holds the
    normal forms of the extensions of the list and nothing else; every
    element starts with a dot and is in lower case, which is the form
    that the walker compares with. *)
Theorem parse_extensions_normalizes (extensions : option (list string)) :
  (parse_extensions extensions = None
   <-> extensions = None \/ extensions = Some [])
  /\ (forall normalized,
        parse_extensions extensions = Some normalized ->
        normalized <> ∅
        /\ (forall x,
              x ∈ normalized
              <-> exists exts ext,
                    extensions = Some exts /\ In ext exts
                    /\ x = normalize_extension ext)
        /\ (forall x,
              x ∈ normalized -> startswith x "." = true /\ lower x = x)).
Proof.
  split.
  - destruct extensions as [[|e exts]|]; cbn; split; auto;
      try discriminate; intros [H|H]; discriminate.
  - intros normalized H.
    destruct extensions as [[|e exts]|]; try discriminate.
    cbn [parse_extensions] in H. injection H as <-.
    assert (forall x,
               x ∈ fold_left
                     (fun normalized ext =>
                        normalized ∪ {[ normalize_extension ext ]})
                     (e :: exts) (∅ : gset string)
               <-> exists ext, In ext (e :: exts)
                               /\ x = normalize_extension ext) as Hmem.
    { intros x. rewrite elem_of_normalized. split.
      - intros [H|H]; [set_solver | exact H].
      - auto. }
    split; [|split].
    + intros Hempty.
      apply (not_elem_of_empty (C := gset string) (normalize_extension e)).
      rewrite <- Hempty. apply (proj2 (Hmem (normalize_extension e))).
      exists e. split; [left; reflexivity | reflexivity].
    + intros x. rewrite Hmem. split.
      * intros (ext & Hin & ->). exists (e :: exts), ext. auto.
      * intros (l & ext & [= <-] & Hin & ->). eauto.
    + intros x Hx. apply Hmem in Hx. destruct Hx as (ext & _ & ->).
      split; [apply normalize_extension_dot|].
      unfold normalize_extension. apply lower_idempotent.
Qed.

Lemma parse_extensions_normalizes_witness :
  exists normalized,
    parse_extensions (Some ["PY"; ".py"; "Js"]) = Some normalized
    /\ normalized = {[ ".py"; ".js" ]}
    /\ normalized <> ∅
    /\ (forall x,
          x ∈ normalized -> startswith x "." = true /\ lower x = x).
Proof.
  destruct (parse_extensions (Some ["PY"; ".py"; "Js"])) as [normalized|]
    eqn:E; [|vm_compute in E; discriminate].
  destruct (proj2 (parse_extensions_normalizes (Some ["PY"; ".py"; "Js"]))
              normalized E) as (Hne & _ & Hall).
  exists normalized. split; [reflexivity|]. split.
  - cbn in E. injection E as <-. apply set_eq. intros x.
    rewrite !elem_of_union, !elem_of_singleton.
    change (normalize_extension "PY") with ".py".
    change (normalize_extension ".py") with ".py".
    change (normalize_extension "Js") with ".js".
    split.
    + intros [[[H|H]|H]|H]; [set_solver|auto..].
    + intros [H|H]; auto.
  - split; [exact Hne | exact Hall].
Defined.

(** With the extensions of the command line, the walker selects a file
    exactly when its name does not start with a dot and its extension
    is, letter case apart, one of those given, with or without its
    dot. *)
Theorem cli_extensions_select (root_path file_path : Path)
    (ignore_dirs : option (gset string)) (e : string) (exts : list string) :
  let self :=
    __init__ root_path (parse_extensions (Some (e :: exts))) ignore_dirs in
  _should_analyze_file self file_path = true
  <-> startswith (name file_path) "." = false
      /\ exists ext,
           In ext (e :: exts)
           /\ lower (suffix file_path) = normalize_extension ext.
Proof.
  intros self.
  destruct (parse_extensions (Some (e :: exts))) as [normalized|] eqn:E;
    [|discriminate].
  destruct (proj2 (parse_extensions_normalizes (Some (e :: exts)))
              normalized E) as (Hne & Hmem & _).
  unfold _should_analyze_file.
  cbn [ProjectAnalyzer.file_extensions self __init__].
  destruct (startswith (name file_path) ".").
  - split; [discriminate | intros [H _]; discriminate].
  - rewrite bool_decide_eq_false_2 by exact Hne.
    rewrite bool_decide_eq_true, Hmem. split.
    + intros (l & ext & [= <-] & Hin & Hx). split; [reflexivity|]. eauto.
    + intros [_ (ext & Hin & Hx)]. exists (e :: exts), ext. auto.
Qed.

End CliFacts.
